(* ===== verification/_CoqProject ===== *)
-Q . S2P
Prelude.v
JsNumber.v
Inputs.v
Metrics.v
Chart.v
Lifecycle.v
Display.v
Page.v
