(* ===== verification/Prelude.v ===== *)
(** * A verification development of the ROAS calculator

    The program is one React client component, [Home] in
    src/src/app/page.tsx.  It holds two pieces of state, the slider
    [values] (ad spend, number of orders, average order value) and the
    derived [metrics] (total sales, ROAS, profit, ACOS); a [useEffect]
    with dependency [values] recomputes the metrics; three range sliders
    write the values through functional [setValues] updates; the page
    prints the values and metrics as text and draws a Recharts line
    chart from [generateChartData].  The parts interact only through
    React: a slider queues an update, React renders, the effect queues
    [setMetrics], React renders again.

    ** Files, in dependency order
    - [Prelude] (this file): the class [JsArith] of the number
      operations the page uses ([-], [*], [/], [===], literals), so that
      every computation is written once and read both as the browser's
      binary64 floats and as exact rationals; finite grids of slider
      values with the lemmas that transport a check over a grid to every
      grid value ([forallb_grid], [forallb_grid3]); rational floors.
    - [JsNumber]: the two instances ([float_arith]: Rocq's primitive
      IEEE-754 binary64 floats, the JavaScript number; [Q_arith]);
      [float_of_Z] for [Number(e.target.value)]; [to_Q], the exact
      rational a finite float denotes ([None] for NaN and infinities);
      [approx eps x q], relative error at most [eps]; JavaScript's [<]
      against [2^53] and [0] read on exact values ([below_two53_spec],
      [ltb_zero_sign], from the mantissa bound of valid binary64 floats).
    - [Inputs]: the [values] record (page.tsx:8-12), the functional
      update [set_field] of [onChange] (page.tsx:57, 75, 93), the three
      [RangeSpec]s of the sliders (min/max/step at page.tsx:58-60, 76-78,
      94-96) and [sanitize], the HTML value sanitization of a range input
      (clamp, then nearest step, ties up), which the browser applies
      before [onChange] sees a value.  Theorems C15-C18: the delivered
      value is on the slider and within half a step of the pointer,
      values on the slider are delivered unchanged, sanitization is
      monotone, and slider inputs keep the state among slider values.
    - [Metrics]: [computeMetrics], the effect body (page.tsx:22-32),
      and [initialMetrics] (page.tsx:14-19).  At [Q] it is the spec's
      formulas, and C10 proves the break-even law there (profit >= 0 iff
      ROAS >= 1).  At floats it is what the browser computes: C3 proves
      on all 101 x 41 x 21 slider states that the floats are the
      rational metrics, [totalSales] and [profit] exactly, [roas] within
      2^-53 and [acos] within 3 * 2^-53 relative error (one and two
      roundings); C5 no NaN or infinity, C6 the ranges of the metrics,
      C9 the break-even law on the floats themselves, with JavaScript's
      comparisons: profit >= 0 iff ROAS >= 1 iff ACOS <= 100.
    - [Chart]: [generateChartData] (page.tsx:35-41) and the chart's
      props of the chart (page.tsx:137-155): margin, strokes, the
      [dataKey]s of the x axis and of the two lines, their styles.
      C20, C21, C23, C25: the lines cross exactly at break-even, the
      revenue line passes through the point the metric card shows, the
      chart draws exactly two polylines, revenue [i * w] and the flat ad
      spend, over x = 0..40, and every revenue point is the exact
      product [i * w].
    - [Lifecycle]: React's handling of the component as a step relation
      on [State] (committed values and metrics, queued updates, pending
      effect): [step_input] (a slider's [onChange]), [step_flush] (the
      effect runs and queues [setMetrics]), [step_render] (queued updates
      rendered and committed; React flushes a pending effect first).
      [internal_step] is the part of it React does on its own (flush and
      render, no input).  C1, C4: at rest, every reachable state shows
      the metrics of its values, which are slider values, so C3-C6 apply
      to what is shown; C7: four internal steps always reach rest
      without losing a queued input; C34: after every slider input,
      internal steps alone reach rest showing the new values and their
      metrics; C13: inputs batched into one render are applied in order;
      C14: at most one recomputation of the metrics is ever outstanding;
      C26: inputs on two different sliders reach the same state at rest
      in either order; C2: for every input sequence React's run refines
      the spec's model "replace the values, recompute the metrics"; C8:
      the first commit after an input is stale.
    - [Display]: what the page prints (page.tsx:52, 70, 88, 103-129).
      [number_toString] is ECMAScript's Number::toString (the shortest
      digits that round back to the float, fixed or exponential
      placement) and [toFixed] is Number.prototype.toFixed (the integer
      [n] nearest [x * 10^f], ties up, with the point inserted), both on
      the exact value [to_Q] of the float; [view] is the record of every
      dynamic string of the page.  C27, C31: the ROAS and ACOS cards read
      back within 0.05 of the numbers held ([toFixed] rounds to [f]
      places), and have the shape sign, digits, point, one digit; C28:
      labels, total sales and profit are the digits of the exact
      integers; C29, C11: on every slider state the ROAS card is within
      0.05 plus one float rounding of the exact ROAS, the ACOS card
      within 0.05 plus two of the exact ACOS; C12: the ROAS the second
      paragraph prints is within 0.005 plus one rounding; C30: the
      "additional" share is printed negative exactly at a loss with
      sales; C22: on every slider state the effect's guards print "0.0x"
      and "0.0%" where the unguarded quotients would print "Infinity".
      [value_string] is the string a range input hands to its handler
      and [string_to_number] is [Number] on it; C24: the round trip
      gives back exactly the sanitized value.  Two examples document
      the findings: the text at a loss, and a ROAS of 1.15 printed
      "1.1x" on the card and "$1.15" in the explanation.
    - [Page]: the element tree [Home] returns (page.tsx:43-161), built
      from [view], the sliders of [Inputs] and the chart of [Chart]; it
      composes the components over the states of [Lifecycle].  C19: at
      rest, the page's whole text in document order, with the integer
      strings and the ROAS accuracy above; C32: the three range inputs
      show, in every reachable state, the value of the field each one
      writes, a value its slider can take; C33: at rest the chart's
      revenue line passes through the total sales shown on the card.
      An example shows the stale commit printing "$0" next to "2.0x".

    ** Bounds and evaluation
    Properties over the slider domain are proved by evaluating a boolean
    check over the 86,961 slider states with [vm_compute] (about 20 s,
    twice: tactic and kernel) and instantiating it with [forall_ui_spec]:
    [Metrics.domain_check_ok] for the metrics, [Display.display_check_ok]
    for what the page formats; the latter uses float operations only
    ([===], [<]), and [JsNumber.below_two53_spec] turns [-2^53 < x <
    2^53] into a bound on the exact value, so the kernel re-checks it
    quickly (rational arithmetic is what makes [domain_check_ok] slow).
    Integers are printed by Number::toString as their digits on the
    multiples of 5 in [-1000, 4000] and on [0, 40]
    ([Display.int_toString_check]), which hold every value, total sales
    and profit a slider state produces ([Display.ui_printed]).
    [settle] has fuel 4: a pending effect and a non-empty queue take at
    most flush, render, flush, render (C7 proves the bound suffices
    from every state).  Values are integers below 2^53, so the float
    literals and [Number] conversions are exact.

    ** Not modelled
    What the Tailwind classes look like (the tree keeps the class names
    only), Recharts' drawing (the model keeps the props the page passes
    and which fields each line reads), and Next.js plumbing are not
    modelled.  React's scheduler is modelled by its observable order
    (handlers, effect flush before render, one render per batch); an
    input event whose value did not change is kept as a step, which only
    adds behaviours, so the safety theorems hold a fortiori.
    [Number] is modelled on integer literals below 2^53 only
    ([string_to_number] answers [None] for other strings): a range input
    with integral min and step hands over nothing else, and C24 proves
    that [Number(e.target.value)] is then [float_of_Z] of the sanitized
    value, which is how [onChange] and [input_update] are written.  [toFixed] takes its digit count as
    a natural number, so its RangeError for counts outside [0, 100] is
    not modelled (the page passes the literals 1 and 2); of a number of
    magnitude 10^21 or more, of NaN and of the infinities it falls back
    to [number_toString], as the specification says, and C22 shows the
    page's guards keep it from printing "Infinity". *)

From Stdlib Require Import ZArith QArith Qabs Qround Lqa List Lia Bool.
Import ListNotations.

(** ** The arithmetic interface of the program

    Every number of page.tsx is a JavaScript number.  The computations of
    the page are written once, against this class, and read at two
    instances: binary64 floats (what the browser runs, [JsNumber.v]) and
    exact rationals (the mathematical meaning the spec gives them). *)
Class JsArith (N : Type) := {
  js_of_Z : Z -> N;              (** a numeric literal such as [0] or [100] *)
  js_sub : N -> N -> N;
  js_mul : N -> N -> N;
  js_div : N -> N -> N;
  js_eqb : N -> N -> bool        (** strict equality [===] on numbers *)
}.

Declare Scope js_scope.
Delimit Scope js_scope with js.
Notation "x - y" := (js_sub x y) : js_scope.
Notation "x * y" := (js_mul x y) : js_scope.
Notation "x / y" := (js_div x y) : js_scope.
Notation "x === y" := (js_eqb x y) (at level 70, no associativity) : js_scope.

Create HintDb roas discriminated.
Create Rewrite HintDb roas_simpl.

(** ** Finite grids of integers

    A range slider only takes the values [lo], [lo + step], ...; [grid lo
    step n] lists the first [n] of them.  Properties of the page over the
    whole slider domain are checked on these lists by evaluation and
    transported to every grid value by [forallb_grid]. *)
Definition grid (lo step : Z) (n : nat) : list Z :=
  map (fun k => lo + step * Z.of_nat k)%Z (seq 0 n).

Definition on_grid (lo step : Z) (n : nat) (z : Z) : bool :=
  ((lo <=? z) && (z <=? lo + step * (Z.of_nat n - 1))
   && ((z - lo) mod step =? 0))%Z.

Lemma on_grid_In lo step n z :
  (0 < step)%Z -> on_grid lo step n z = true -> In z (grid lo step n).
Proof.
  unfold on_grid. intros Hs H.
  apply andb_prop in H as [H Hm]. apply andb_prop in H as [Hlo Hhi].
  apply Z.leb_le in Hlo. apply Z.leb_le in Hhi. apply Z.eqb_eq in Hm.
  unfold grid. apply in_map_iff.
  exists (Z.to_nat ((z - lo) / step)). split.
  - rewrite Z2Nat.id by (apply Z.div_pos; lia).
    pose proof (Z.div_mod (z - lo) step ltac:(lia)). lia.
  - apply in_seq. split; [lia|].
    assert ((z - lo) / step < Z.of_nat n)%Z; [|lia].
    apply Z.div_lt_upper_bound; lia.
Qed.

Lemma In_grid_on_grid lo step n z :
  (0 < step)%Z -> In z (grid lo step n) -> on_grid lo step n z = true.
Proof.
  intros Hs Hin. unfold grid in Hin. apply in_map_iff in Hin as [k [<- Hk]].
  apply in_seq in Hk. unfold on_grid.
  replace (lo + step * Z.of_nat k - lo)%Z with (Z.of_nat k * step)%Z by lia.
  rewrite Z.mod_mul by lia.
  apply andb_true_intro; split; [apply andb_true_intro; split|];
    [apply Z.leb_le | apply Z.leb_le | apply Z.eqb_eq]; nia.
Qed.

Lemma forallb_grid (f : Z -> bool) lo step n z :
  (0 < step)%Z -> forallb f (grid lo step n) = true ->
  on_grid lo step n z = true -> f z = true.
Proof.
  intros Hs Hall Hz. rewrite forallb_forall in Hall.
  apply Hall, on_grid_In; assumption.
Qed.

Lemma length_grid lo step n : length (grid lo step n) = n.
Proof. unfold grid. rewrite length_map, length_seq. reflexivity. Qed.

#[export] Hint Resolve on_grid_In In_grid_on_grid : roas.
#[export] Hint Rewrite length_grid : roas_simpl.

(** A property checked on three nested slider grids holds at every triple
    of slider values. *)
Lemma forallb_grid3 (f : Z -> Z -> Z -> bool)
    lo1 st1 n1 lo2 st2 n2 lo3 st3 n3 a b c :
  (0 < st1)%Z -> (0 < st2)%Z -> (0 < st3)%Z ->
  forallb (fun a => forallb (fun b => forallb (fun c => f a b c)
    (grid lo3 st3 n3)) (grid lo2 st2 n2)) (grid lo1 st1 n1) = true ->
  on_grid lo1 st1 n1 a = true -> on_grid lo2 st2 n2 b = true ->
  on_grid lo3 st3 n3 c = true -> f a b c = true.
Proof.
  intros H1 H2 H3 Hall Ha Hb Hc.
  apply (forallb_grid (fun c => f a b c) lo3 st3 n3); try assumption.
  apply (forallb_grid (fun b => forallb (fun c => f a b c) (grid lo3 st3 n3))
           lo2 st2 n2); try assumption.
  apply (forallb_grid (fun a => forallb (fun b => forallb (fun c => f a b c)
           (grid lo3 st3 n3)) (grid lo2 st2 n2)) lo1 st1 n1); assumption.
Qed.

(** ** Rational floors *)

(** [Qfloor q] is the one integer [n] with [n <= q < n + 1]. *)
Lemma Qfloor_unique (q : Q) (n : Z) :
  (inject_Z n <= q)%Q -> (q < inject_Z (n + 1))%Q -> Qfloor q = n.
Proof.
  intros Hlo Hhi.
  pose proof (Qfloor_le q) as H1. pose proof (Qlt_floor q) as H2.
  assert (A : (Qfloor q < n + 1)%Z).
  { rewrite Zlt_Qlt. eapply Qle_lt_trans; eassumption. }
  assert (B : (n < Qfloor q + 1)%Z).
  { rewrite Zlt_Qlt. eapply Qle_lt_trans; eassumption. }
  lia.
Qed.

Lemma Qfloor_nonneg (q : Q) : (0 <= q)%Q -> (0 <= Qfloor q)%Z.
Proof.
  intros H. change 0%Z with (Qfloor 0). apply Qfloor_resp_le. exact H.
Qed.

Lemma inject_Z_minus (x y : Z) : inject_Z (x - y) = (inject_Z x - inject_Z y)%Q.
Proof. unfold Z.sub. rewrite inject_Z_plus, inject_Z_opp. reflexivity. Qed.
