(* ===== verification/JsNumber.v ===== *)
(** * JavaScript numbers: binary64 floats and their exact rational value

    The two instances of [Prelude.JsArith]: [float_arith] interprets
    every operation as the IEEE-754 binary64 operation the browser runs
    (Rocq's primitive floats, round-to-nearest-even, with [===] as IEEE
    equality), and [Q_arith] as exact rational arithmetic.  [to_Q] reads
    a finite float as the rational it denotes; [approx eps x q] says that
    the float [x] is [q] up to the relative error [eps]; [below_two53]
    and [ltb_zero_sign] read JavaScript's [<] against a bound and
    against zero as statements about the exact value. *)

From Stdlib Require Import ZArith QArith Qabs Lqa List Lia Bool Floats Uint63.
From S2P Require Import Prelude.
Import ListNotations.

(** [Number("500")] for the decimal string of an integer: the float
    nearest to it (exact below 2^53). *)
Definition float_of_Z (z : Z) : float :=
  if (z <? 0)%Z then (- of_uint63 (Uint63.of_Z (- z)))%float
  else of_uint63 (Uint63.of_Z z).

#[export] Instance float_arith : JsArith float := {
  js_of_Z := float_of_Z;
  js_sub := PrimFloat.sub;
  js_mul := PrimFloat.mul;
  js_div := PrimFloat.div;
  js_eqb := PrimFloat.eqb
}.

#[export] Instance Q_arith : JsArith Q := {
  js_of_Z := inject_Z;
  js_sub := Qminus;
  js_mul := Qmult;
  js_div := Qdiv;
  js_eqb := Qeq_bool
}.

(** ** The exact value of a float *)

Definition sf_to_Q (s : spec_float) : option Q :=
  match s with
  | S754_zero _ => Some 0%Q
  | S754_finite b m e =>
      let q := match e with
               | Z0 => inject_Z (Zpos m)
               | Zpos p => inject_Z (Zpos m * 2 ^ Zpos p)
               | Zneg p => Qmake (Zpos m) (2 ^ p)%positive
               end in
      Some (if b then Qopp q else q)
  | S754_infinity _ | S754_nan => None
  end.

(** [None] for NaN and the infinities. *)
Definition to_Q (x : float) : option Q := sf_to_Q (Prim2SF x).

(** [x] denotes [q] up to the relative error [eps]; a decidable test. *)
Definition approx (eps : Q) (x : float) (q : Q) : bool :=
  match to_Q x with
  | Some r => Qle_bool (Qabs (r - q)) (eps * Qabs q)
  | None => false
  end.

(** [x] is finite and denotes exactly [q]. *)
Definition exact (x : float) (q : Q) : bool := approx 0 x q.

(** ** Lemmas on [approx] *)

Lemma approx_spec eps x q :
  approx eps x q = true <->
  exists r, to_Q x = Some r /\ (Qabs (r - q) <= eps * Qabs q)%Q.
Proof.
  unfold approx. destruct (to_Q x) as [r|]; split.
  - intros H. exists r. split; [reflexivity|]. now apply Qle_bool_iff.
  - intros [r' [[= <-] H]]. now apply Qle_bool_iff.
  - discriminate.
  - intros [r' [H _]]. discriminate.
Qed.

Lemma approx_interval eps x q :
  approx eps x q = true ->
  exists r, to_Q x = Some r /\
    (q - eps * Qabs q <= r <= q + eps * Qabs q)%Q.
Proof.
  rewrite approx_spec. intros [r [Hr H]]. exists r. split; [assumption|].
  apply Qabs_Qle_condition in H. lra.
Qed.

Lemma exact_spec x q :
  exact x q = true <-> exists r, to_Q x = Some r /\ (r == q)%Q.
Proof.
  unfold exact. rewrite approx_spec.
  split; intros [r [Hr H]]; exists r; split; try assumption.
  - rewrite Qmult_0_l in H. apply Qabs_Qle_condition in H. lra.
  - rewrite Qmult_0_l. apply Qabs_Qle_condition. lra.
Qed.

(** A float that approximates [0] is zero itself. *)
Lemma approx_zero eps x :
  approx eps x 0 = true -> exists r, to_Q x = Some r /\ (r == 0)%Q.
Proof.
  intros H. apply approx_interval in H as [r [Hr Hb]]. exists r.
  split; [assumption|]. simpl in Hb. lra.
Qed.

#[export] Hint Resolve approx_interval approx_zero : roas.

(** An approximation is a finite number: neither NaN nor an infinity. *)
Lemma approx_finite eps x q : approx eps x q = true -> exists r, to_Q x = Some r.
Proof. rewrite approx_spec. intros [r [Hr _]]. eauto. Qed.

#[export] Hint Resolve approx_finite : roas.

(** ** Comparing a float with a bound

    JavaScript's [<] on floats is [SFltb] on their [spec_float] views
    ([FloatAxioms.ltb_spec]).  A float strictly between [-2^53] and
    [2^53] is finite and its value lies in that interval: the bound is
    checked by float comparisons alone, without computing [to_Q]. *)

Lemma digits2_pos_bound m : (Z.pos m < 2 ^ Z.pos (digits2_pos m))%Z.
Proof.
  induction m as [p IH|p IH|]; cbn [digits2_pos]; [| |reflexivity];
    rewrite Pos2Z.inj_succ, Z.pow_succ_r by apply Pos2Z.is_nonneg; lia.
Qed.

(** The mantissa of a valid binary64 float has at most 53 bits. *)
Lemma valid_mantissa b m e :
  SpecFloat.valid_binary prec emax (S754_finite b m e) = true -> (Z.pos m < 2 ^ 53)%Z.
Proof.
  unfold SpecFloat.valid_binary, bounded, canonical_mantissa, fexp. intros H.
  apply andb_prop in H as [H _]. apply Z.eqb_eq in H.
  pose proof (digits2_pos_bound m) as Hd.
  assert (Hle : (Z.pos (digits2_pos m) <= 53)%Z) by (unfold prec in H; lia).
  eapply Z.lt_le_trans; [exact Hd|]. apply Z.pow_le_mono_r; lia.
Qed.

Lemma sf_to_Q_finite b m e :
  exists q, (0 < q)%Q /\ sf_to_Q (S754_finite b m e) = Some (if b then - q else q)%Q.
Proof.
  eexists. split; [|reflexivity]. destruct e as [|p|p].
  - unfold Qlt. simpl. lia.
  - change 0%Q with (inject_Z 0). rewrite <- Zlt_Qlt.
    apply Z.mul_pos_pos; [lia | apply Z.pow_pos_nonneg; lia].
  - unfold Qlt. simpl. lia.
Qed.

Lemma Qabs_signed (b : bool) (q : Q) : (Qabs (if b then - q else q) == Qabs q)%Q.
Proof. destruct b; [apply Qabs_opp | reflexivity]. Qed.

(** The magnitude of [m * 2^e] for [e <= 0] is at most [m]; for [e = 1]
    it is [2 * m]. *)
Lemma sf_magnitude b m e r :
  sf_to_Q (S754_finite b m e) = Some r ->
  ((e <= 0)%Z -> (Qabs r <= inject_Z (Z.pos m))%Q)
  /\ (e = 1%Z -> (Qabs r == inject_Z (2 * Z.pos m))%Q).
Proof.
  cbn [sf_to_Q]. intros [= <-]. rewrite Qabs_signed. split; intros He.
  - destruct e as [|p|p]; [| lia |].
    + rewrite Qabs_pos by (change 0%Q with (inject_Z 0); rewrite <- Zle_Qle; lia). apply Qle_refl.
    + unfold Qle. cbn [Qabs Qnum Qden Z.abs inject_Z]. pose proof (Pos2Z.is_pos (2 ^ p)). nia.
  - subst e. unfold Qeq. simpl. lia.
Qed.

Definition two53 : float := float_of_Z (2 ^ 53).

Lemma Prim2SF_two53 : Prim2SF two53 = S754_finite false 4503599627370496 1.
Proof. vm_compute. reflexivity. Qed.

Lemma Prim2SF_zero : Prim2SF (float_of_Z 0) = S754_zero false.
Proof. vm_compute. reflexivity. Qed.

(** [-2^53 < x < 2^53], as JavaScript compares. *)
Definition below_two53 (x : float) : bool :=
  (PrimFloat.ltb (- two53) x && PrimFloat.ltb x two53)%float.

Lemma sfltb_two53 m e :
  SFltb (S754_finite false m e) (S754_finite false 4503599627370496 1) = true ->
  (e <= 0)%Z \/ (e = 1 /\ Z.pos m < 2 ^ 52)%Z.
Proof.
  cbv beta iota delta [SFltb SFcompare].
  destruct (Z.compare_spec e 1) as [->|Hlt|Hgt].
  - destruct (Pos.compare_cont Eq m _) eqn:E; try discriminate.
    intros _. right. split; [reflexivity|]. apply Pos.compare_lt_iff, Pos2Z.pos_lt_pos in E.
    exact E.
  - intros _. left. lia.
  - discriminate.
Qed.

Lemma sfltb_minus_two53 m e :
  SFltb (S754_finite true 4503599627370496 1) (S754_finite true m e) = true ->
  (e <= 0)%Z \/ (e = 1 /\ Z.pos m < 2 ^ 52)%Z.
Proof.
  cbv beta iota delta [SFltb SFcompare].
  destruct (Z.compare_spec 1 e) as [<-|Hlt|Hgt].
  - destruct (Pos.compare_cont Eq _ m) eqn:E; try discriminate.
    intros _. right. split; [reflexivity|]. apply Pos.compare_gt_iff, Pos2Z.pos_lt_pos in E.
    exact E.
  - discriminate.
  - intros _. left. lia.
Qed.

Lemma below_two53_spec x :
  below_two53 x = true -> exists r, to_Q x = Some r /\ (Qabs r < inject_Z (2 ^ 53))%Q.
Proof.
  unfold below_two53, to_Q. rewrite !FloatAxioms.ltb_spec, FloatAxioms.opp_spec, Prim2SF_two53.
  pose proof (Prim2SF_valid x) as Hv.
  destruct (Prim2SF x) as [s|s| |s m e]; cbv beta iota delta [SFopp].
  - intros _. eexists. split; [reflexivity|]. reflexivity.
  - destruct s; discriminate.
  - discriminate.
  - intros H. apply valid_mantissa in Hv. apply andb_prop in H as [H1 H2].
    assert (Hb : (e <= 0)%Z \/ (e = 1 /\ Z.pos m < 2 ^ 52)%Z)
      by (destruct s; [apply sfltb_minus_two53 | apply sfltb_two53]; assumption).
    destruct (sf_to_Q_finite s m e) as (q & _ & Hq).
    destruct (sf_magnitude s m e _ Hq) as [Hle Hone].
    rewrite Hq. eexists. split; [reflexivity|].
    destruct Hb as [He | [He Hm]].
    + eapply Qle_lt_trans; [apply Hle, He|]. rewrite <- Zlt_Qlt. exact Hv.
    + rewrite (Hone He). rewrite <- Zlt_Qlt.
      change (2 ^ 53)%Z with (2 * 2 ^ 52)%Z. lia.
Qed.

(** [x < 0] holds of a finite float exactly when its value is negative
    ([-0 < 0] is false, as in JavaScript). *)
Lemma ltb_zero_sign x r :
  to_Q x = Some r -> PrimFloat.ltb x (float_of_Z 0) = negb (Qle_bool 0 r).
Proof.
  unfold to_Q. rewrite FloatAxioms.ltb_spec, Prim2SF_zero.
  destruct (Prim2SF x) as [s|s| |s m e]; try discriminate.
  - intros [= <-]. reflexivity.
  - destruct (sf_to_Q_finite s m e) as (q & Hq & ->). intros [= <-]. cbn.
    destruct s; destruct (Qle_bool 0 _) eqn:E; try reflexivity;
      [apply Qle_bool_iff in E; lra|].
    exfalso. assert (H : (0 <= q)%Q) by lra. apply Qle_bool_iff in H. congruence.
Qed.
