(* ===== verification/Inputs.v ===== *)
(** * The three inputs: the [values] state and the range sliders

    [Values] is the object held by [useState] at page.tsx:8-12.  The
    three [<input type="range">] elements (page.tsx:54-62, 72-80, 90-98)
    are [RangeSpec]s holding their min/max/step attributes; a slider
    delivers the value the HTML value sanitization algorithm gives the
    position the user asked for ([sanitize]: clamp to [min, max], then
    round to the nearest step, ties toward +infinity), and the
    [onChange] handler stores [Number(e.target.value)] into a copy of
    the previous state through a functional update ([set_field]). *)

From Stdlib Require Import ZArith QArith Qabs Qround Lqa Psatz List Lia Bool Floats.
From S2P Require Import Prelude JsNumber.
Import ListNotations.

(** ** The [values] state *)

Record Values (N : Type) := mkValues {
  adSpend : N;
  orders : N;
  avgOrderValue : N
}.
Arguments mkValues {N} _ _ _.
Arguments adSpend {N} _.
Arguments orders {N} _.
Arguments avgOrderValue {N} _.

(** [useState({ adSpend: 500, orders: 20, avgOrderValue: 50 })] *)
Definition initialValues {N} `{JsArith N} : Values N :=
  mkValues (js_of_Z 500) (js_of_Z 20) (js_of_Z 50).

(** The three fields a slider can write. *)
Inductive Field := FAdSpend | FOrders | FAvgOrderValue.

Definition Field_eq_dec (f g : Field) : {f = g} + {f <> g}.
Proof. decide equality. Defined.

(** [prev => ({ ...prev, <field>: x })] *)
Definition set_field {N} (f : Field) (x : N) (prev : Values N) : Values N :=
  match f with
  | FAdSpend => mkValues x (orders prev) (avgOrderValue prev)
  | FOrders => mkValues (adSpend prev) x (avgOrderValue prev)
  | FAvgOrderValue => mkValues (adSpend prev) (orders prev) x
  end.

Definition get_field {N} (f : Field) (v : Values N) : N :=
  match f with
  | FAdSpend => adSpend v
  | FOrders => orders v
  | FAvgOrderValue => avgOrderValue v
  end.

(** ** Range sliders *)

Record RangeSpec := mkRange { rmin : Z; rmax : Z; rstep : Z }.

(** [min="0" max="1000" step="10"] *)
Definition adSpendRange : RangeSpec := mkRange 0 1000 10.
(** [min="0" max="40" step="1"] *)
Definition ordersRange : RangeSpec := mkRange 0 40 1.
(** [min="0" max="100" step="5"] *)
Definition avgOrderValueRange : RangeSpec := mkRange 0 100 5.

Definition field_range (f : Field) : RangeSpec :=
  match f with
  | FAdSpend => adSpendRange
  | FOrders => ordersRange
  | FAvgOrderValue => avgOrderValueRange
  end.

(** The ranges of the page are well formed: a positive step and a
    maximum that is itself a step value. *)
Definition wf_range (r : RangeSpec) : bool :=
  (0 <? rstep r)%Z && (rmin r <=? rmax r)%Z
  && ((rmax r - rmin r) mod rstep r =? 0)%Z.

(** Underflow gives the minimum and overflow the maximum. *)
Definition clamp (r : RangeSpec) (x : Q) : Q :=
  if Qle_bool (inject_Z (rmin r)) x then
    if Qle_bool x (inject_Z (rmax r)) then x else inject_Z (rmax r)
  else inject_Z (rmin r).

(** The nearest value [min + k * step] that is at most [max], the larger
    one on a tie. *)
Definition sanitize (r : RangeSpec) (raw : Q) : Z :=
  let x := clamp r raw in
  let k := Qfloor ((x - inject_Z (rmin r)) / inject_Z (rstep r) + (1 # 2)) in
  (rmin r + Z.min k ((rmax r - rmin r) / rstep r) * rstep r)%Z.

(** The number of values of a slider, and the values themselves. *)
Definition range_count (r : RangeSpec) : nat :=
  Z.to_nat ((rmax r - rmin r) / rstep r + 1).

Definition on_range (r : RangeSpec) (z : Z) : bool :=
  on_grid (rmin r) (rstep r) (range_count r) z.

(** [onChange={(e) => setValues(prev => ({ ...prev, f: Number(e.target.value) }))}]
    for the slider of field [f] moved to the position [raw]. *)
Definition onChange (f : Field) (raw : Q) : Values float -> Values float :=
  set_field f (float_of_Z (sanitize (field_range f) raw)).

(** The values a state can hold when every field was set by its slider. *)
Definition ui_values (a o w : Z) : Values float :=
  mkValues (float_of_Z a) (float_of_Z o) (float_of_Z w).

Definition in_domain (v : Values float) : Prop :=
  exists a o w, on_range adSpendRange a = true /\ on_range ordersRange o = true
    /\ on_range avgOrderValueRange w = true /\ v = ui_values a o w.


(** ** The slider of a well-formed range *)

Section Slider.
Context (r : RangeSpec) (Hwf : wf_range r = true).

Lemma wf_range_spec :
  (0 < rstep r)%Z /\ (rmin r <= rmax r)%Z /\ ((rmax r - rmin r) mod rstep r = 0)%Z.
Proof.
  unfold wf_range in Hwf. apply andb_prop in Hwf as [H Hm].
  apply andb_prop in H as [Hs Hle].
  apply Z.ltb_lt in Hs. apply Z.leb_le in Hle. apply Z.eqb_eq in Hm. auto.
Qed.

Lemma clamp_bounds x :
  (inject_Z (rmin r) <= clamp r x <= inject_Z (rmax r))%Q.
Proof.
  destruct wf_range_spec as [_ [Hle _]]. rewrite Zle_Qle in Hle.
  unfold clamp.
  destruct (Qle_bool (inject_Z (rmin r)) x) eqn:E1;
    [destruct (Qle_bool x (inject_Z (rmax r))) eqn:E2|].
  - apply Qle_bool_iff in E1, E2. lra.
  - apply Qle_bool_iff in E1. lra.
  - lra.
Qed.

Lemma clamp_id x :
  (inject_Z (rmin r) <= x <= inject_Z (rmax r))%Q -> clamp r x = x.
Proof.
  intros [H1 H2]. unfold clamp.
  apply Qle_bool_iff in H1, H2. rewrite H1, H2. reflexivity.
Qed.

(** The step index the position rounds to is never negative. *)
Lemma sanitize_index_nonneg x :
  (0 <= Qfloor ((clamp r x - inject_Z (rmin r)) / inject_Z (rstep r) + (1 # 2)))%Z.
Proof.
  destruct wf_range_spec as [Hs _]. rewrite Zlt_Qlt in Hs.
  pose proof (clamp_bounds x) as [Hlo _].
  apply Qfloor_nonneg.
  assert (0 <= (clamp r x - inject_Z (rmin r)) / inject_Z (rstep r))%Q; [|lra].
  apply Qle_shift_div_l; [assumption|]. lra.
Qed.

Lemma on_range_spec z :
  on_range r z = true <->
  (rmin r <= z <= rmin r + rstep r * ((rmax r - rmin r) / rstep r))%Z
  /\ ((z - rmin r) mod rstep r = 0)%Z.
Proof.
  destruct wf_range_spec as [Hs [Hle _]].
  assert (0 <= (rmax r - rmin r) / rstep r)%Z by (apply Z.div_pos; lia).
  unfold on_range, on_grid, range_count.
  rewrite Z2Nat.id by lia.
  replace ((rmax r - rmin r) / rstep r + 1 - 1)%Z
    with ((rmax r - rmin r) / rstep r)%Z by lia.
  rewrite !andb_true_iff, !Z.leb_le, Z.eqb_eq. tauto.
Qed.

(** The last value of the slider is its maximum. *)
Lemma range_last :
  (rmin r + rstep r * ((rmax r - rmin r) / rstep r) = rmax r)%Z.
Proof.
  destruct wf_range_spec as [Hs [_ Hm]].
  pose proof (Z.div_mod (rmax r - rmin r) (rstep r) ltac:(lia)). lia.
Qed.

Lemma step_index_eq z (j : Z) :
  (z - rmin r = rstep r * j)%Z ->
  ((inject_Z z - inject_Z (rmin r)) / inject_Z (rstep r) == inject_Z j)%Q.
Proof.
  destruct wf_range_spec as [Hs _]. intros Hj.
  assert (Hq : ~ inject_Z (rstep r) == 0).
  { change 0%Q with (inject_Z 0). rewrite inject_Z_injective. lia. }
  rewrite <- inject_Z_minus, Hj, inject_Z_mult. field. exact Hq.
Qed.

(** Every value a slider delivers is one of its values. *)
Lemma sanitize_on_range raw : on_range r (sanitize r raw) = true.
Proof.
  destruct wf_range_spec as [Hs [Hle _]].
  pose proof (sanitize_index_nonneg raw) as Hk.
  assert (0 <= (rmax r - rmin r) / rstep r)%Z by (apply Z.div_pos; lia).
  apply on_range_spec. unfold sanitize.
  set (k := Qfloor _). set (m := Z.min k _).
  assert (0 <= m <= (rmax r - rmin r) / rstep r)%Z by lia.
  split; [nia|].
  replace (rmin r + m * rstep r - rmin r)%Z with (m * rstep r)%Z by lia.
  apply Z.mod_mul. lia.
Qed.

(** C16: a slider value is delivered as it is: sanitization is the
    identity on the values of the slider. *)
Lemma sanitize_on_range_id z :
  on_range r z = true -> sanitize r (inject_Z z) = z.
Proof.
  destruct wf_range_spec as [Hs [Hle _]]. pose proof range_last as Hlast.
  intros Hz. apply on_range_spec in Hz as [[Hlo Hhi] Hm].
  set (j := ((z - rmin r) / rstep r)%Z).
  assert (Hj : (z - rmin r = rstep r * j)%Z).
  { pose proof (Z.div_mod (z - rmin r) (rstep r) ltac:(lia)). lia. }
  assert (Hjmax : (j <= (rmax r - rmin r) / rstep r)%Z) by nia.
  unfold sanitize. rewrite clamp_id.
  2: { rewrite <- !Zle_Qle. lia. }
  rewrite (Qfloor_unique _ j).
  - rewrite Z.min_l by lia. lia.
  - rewrite (step_index_eq z j Hj). lra.
  - rewrite (step_index_eq z j Hj), inject_Z_plus.
    change (inject_Z 1) with 1%Q. lra.
Qed.

Lemma clamp_monotone x y : (x <= y)%Q -> (clamp r x <= clamp r y)%Q.
Proof.
  destruct wf_range_spec as [_ [Hle _]]. rewrite Zle_Qle in Hle.
  intros Hxy. unfold clamp.
  destruct (Qle_bool (inject_Z (rmin r)) x) eqn:E1;
    [destruct (Qle_bool x (inject_Z (rmax r))) eqn:E2|];
  destruct (Qle_bool (inject_Z (rmin r)) y) eqn:E3;
    try destruct (Qle_bool y (inject_Z (rmax r))) eqn:E4;
  repeat match goal with
         | H : Qle_bool _ _ = true |- _ => apply Qle_bool_iff in H
         | H : Qle_bool _ _ = false |- _ =>
             let H' := fresh in
             assert (H' : ~ (Qle_bool _ _ = true)) by (rewrite H; discriminate);
             rewrite Qle_bool_iff in H'; apply Qnot_le_lt in H'; clear H
         end; lra.
Qed.

(** C17: moving the pointer right never moves the slider value left. *)
Lemma sanitize_monotone x y : (x <= y)%Q -> (sanitize r x <= sanitize r y)%Z.
Proof.
  destruct wf_range_spec as [Hs _]. intros Hxy. unfold sanitize.
  assert (Hs' : (0 < inject_Z (rstep r))%Q) by (change 0%Q with (inject_Z 0); rewrite <- Zlt_Qlt; exact Hs).
  assert (Hk : (Qfloor ((clamp r x - inject_Z (rmin r)) / inject_Z (rstep r) + (1 # 2))
               <= Qfloor ((clamp r y - inject_Z (rmin r)) / inject_Z (rstep r) + (1 # 2)))%Z).
  { apply Qfloor_resp_le. apply Qplus_le_compat; [|apply Qle_refl].
    apply Qmult_le_compat_r.
    - pose proof (clamp_monotone x y Hxy). lra.
    - apply Qinv_le_0_compat. lra. }
  nia.
Qed.

(** A position inside the range is delivered as a value at most half a
    step away from it. *)
Lemma sanitize_nearest raw :
  (inject_Z (rmin r) <= raw <= inject_Z (rmax r))%Q ->
  (Qabs (inject_Z (sanitize r raw) - raw) <= inject_Z (rstep r) * (1 # 2))%Q.
Proof.
  destruct wf_range_spec as [Hs [Hle _]]. pose proof range_last as Hlast.
  intros Hraw. unfold sanitize. rewrite clamp_id by exact Hraw.
  assert (Hs' : (0 < inject_Z (rstep r))%Q) by (change 0%Q with (inject_Z 0); rewrite <- Zlt_Qlt; exact Hs).
  set (kmax := ((rmax r - rmin r) / rstep r)%Z) in *.
  set (t := ((raw - inject_Z (rmin r)) / inject_Z (rstep r))%Q).
  assert (Ht : (raw == inject_Z (rmin r) + t * inject_Z (rstep r))%Q).
  { unfold t. field. lra. }
  assert (Hkm : (inject_Z (rmax r) == inject_Z (rmin r) + inject_Z kmax * inject_Z (rstep r))%Q).
  { rewrite <- inject_Z_mult, <- inject_Z_plus. rewrite Z.mul_comm, Hlast. reflexivity. }
  assert (Htk : (t <= inject_Z kmax)%Q).
  { apply (Qmult_le_r _ _ (inject_Z (rstep r))); [exact Hs'|]. lra. }
  set (k := Qfloor (t + (1 # 2))).
  pose proof (Qfloor_le (t + (1 # 2))) as Hk1. pose proof (Qlt_floor (t + (1 # 2))) as Hk2.
  fold k in Hk1, Hk2. rewrite inject_Z_plus in Hk2. change (inject_Z 1) with 1%Q in Hk2.
  assert (Hkk : (k <= kmax)%Z).
  { assert (k < kmax + 1)%Z; [|lia].
    rewrite Zlt_Qlt, inject_Z_plus. change (inject_Z 1) with 1%Q. lra. }
  rewrite Z.min_l by exact Hkk.
  rewrite inject_Z_plus, inject_Z_mult, Ht.
  apply Qabs_Qle_condition. split; nra.
Qed.

(** C15: the value a slider delivers is one of its values (between
    [min] and [max], on a step), and for a position inside the range it
    is at most half a step away from the position. *)
Theorem slider_value_spec raw :
  on_range r (sanitize r raw) = true
  /\ ((inject_Z (rmin r) <= raw <= inject_Z (rmax r))%Q ->
      (Qabs (inject_Z (sanitize r raw) - raw) <= inject_Z (rstep r) * (1 # 2))%Q).
Proof. split; [apply sanitize_on_range | apply sanitize_nearest]. Qed.

End Slider.

Lemma field_range_wf f : wf_range (field_range f) = true.
Proof. destruct f; reflexivity. Qed.

#[export] Hint Resolve field_range_wf sanitize_on_range : roas.

(** ** The functional updates of [setValues] *)

Lemma get_set_field {N} f (x : N) v : get_field f (set_field f x v) = x.
Proof. destruct f; reflexivity. Qed.

Lemma get_set_field_other {N} f g (x : N) v :
  f <> g -> get_field g (set_field f x v) = get_field g v.
Proof. destruct f, g; simpl; congruence. Qed.

Lemma values_ext {N} (v w : Values N) :
  (forall f, get_field f v = get_field f w) -> v = w.
Proof.
  destruct v as [a o x], w as [a' o' x']. intros H.
  f_equal; [apply (H FAdSpend) | apply (H FOrders) | apply (H FAvgOrderValue)].
Qed.

(** Updates of two different fields commute: every handler updates the
    previous state ([prev => ...]). *)
Lemma set_field_comm {N} f g (x y : N) v :
  f <> g -> set_field f x (set_field g y v) = set_field g y (set_field f x v).
Proof. intros Hfg. destruct f, g; try congruence; reflexivity. Qed.

Lemma set_field_twice {N} f (x y : N) v : set_field f x (set_field f y v) = set_field f x v.
Proof. destruct f; reflexivity. Qed.

Lemma ui_values_set_field f z a o w :
  set_field f (float_of_Z z) (ui_values a o w) =
  match f with
  | FAdSpend => ui_values z o w
  | FOrders => ui_values a z w
  | FAvgOrderValue => ui_values a o z
  end.
Proof. destruct f; reflexivity. Qed.

(** The initial state is made of slider values. *)
Lemma initialValues_in_domain : in_domain initialValues.
Proof. exists 500%Z, 20%Z, 50%Z. repeat split; reflexivity. Qed.

(** Storing a slider value keeps the state among slider values. *)
Lemma set_field_in_domain f z v :
  on_range (field_range f) z = true -> in_domain v -> in_domain (set_field f (float_of_Z z) v).
Proof.
  intros Hz (a & o & w & Ha & Ho & Hw & ->). rewrite ui_values_set_field.
  destruct f; simpl in Hz; eexists _, _, _; repeat split; eassumption.
Qed.

(** C18: every slider interaction keeps the state among slider values. *)
Lemma onChange_in_domain f raw v : in_domain v -> in_domain (onChange f raw v).
Proof.
  apply set_field_in_domain. apply sanitize_on_range, field_range_wf.
Qed.

(** ** Properties over the whole slider domain *)

(** The values of a slider, in increasing order. *)
Definition range_values (r : RangeSpec) : list Z :=
  grid (rmin r) (rstep r) (range_count r).

(** A test that holds at every triple of slider values holds at every
    state the sliders can produce. *)
Definition forall_ui (f : Z -> Z -> Z -> bool) : bool :=
  forallb (fun a => forallb (fun o => forallb (fun w => f a o w)
    (range_values avgOrderValueRange)) (range_values ordersRange))
    (range_values adSpendRange).

Lemma forall_ui_spec f a o w :
  forall_ui f = true -> on_range adSpendRange a = true ->
  on_range ordersRange o = true -> on_range avgOrderValueRange w = true ->
  f a o w = true.
Proof. intros Hall. apply forallb_grid3; try exact Hall; reflexivity. Qed.

Lemma ui_values_in_domain a o w :
  on_range adSpendRange a = true -> on_range ordersRange o = true ->
  on_range avgOrderValueRange w = true -> in_domain (ui_values a o w).
Proof. intros Ha Ho Hw. exists a, o, w. auto. Qed.

(** ** Witnesses *)

(** 12.5 on the step-5 slider is a tie: it is delivered as 15. *)
Lemma slider_value_spec_witness :
  sanitize avgOrderValueRange (25 # 2) = 15%Z
  /\ on_range avgOrderValueRange (sanitize avgOrderValueRange (25 # 2)) = true
  /\ ((inject_Z (rmin avgOrderValueRange) <= 25 # 2 <= inject_Z (rmax avgOrderValueRange))%Q ->
      (Qabs (inject_Z (sanitize avgOrderValueRange (25 # 2)) - (25 # 2))
       <= inject_Z (rstep avgOrderValueRange) * (1 # 2))%Q).
Proof.
  split; [reflexivity|].
  exact (slider_value_spec avgOrderValueRange ltac:(reflexivity) (25 # 2)).
Defined.

Lemma sanitize_on_range_id_witness : sanitize adSpendRange (inject_Z 500) = 500%Z.
Proof. exact (sanitize_on_range_id adSpendRange ltac:(reflexivity) 500 ltac:(reflexivity)). Defined.

Lemma sanitize_monotone_witness : (sanitize adSpendRange (44 # 10) <= sanitize adSpendRange 5)%Z.
Proof.
  exact (sanitize_monotone adSpendRange ltac:(reflexivity) (44 # 10) 5
           ltac:(vm_compute; discriminate)).
Defined.

Lemma onChange_in_domain_witness : in_domain (onChange FOrders 7 initialValues).
Proof.
  exact (onChange_in_domain FOrders 7 initialValues
           (ui_values_in_domain 500 20 50 eq_refl eq_refl eq_refl)).
Defined.

