(* ===== verification/Metrics.v ===== *)
(** * The metrics engine: the body of the [useEffect] of page.tsx:21-33

    [computeMetrics] is the computation of [totalSales], [roas], [profit]
    and [acos] from the [values] state, written once against
    [Prelude.JsArith].  At the rational instance it is the spec's
    formulas, and the break-even law is proved there.  At the float
    instance it is what the browser computes; [metrics_refinement]
    shows that on every combination of slider values the floats are the
    rational metrics, exactly for [totalSales] and [profit] and within
    one rounding ([roas]) or two ([acos]), and the break-even law holds
    of the floats with JavaScript's comparisons. *)

From Stdlib Require Import ZArith QArith Qabs Lqa Psatz List Lia Bool Floats.
From S2P Require Import Prelude JsNumber Inputs.
Import ListNotations.

Record Metrics (N : Type) := mkMetrics {
  totalSales : N;
  roas : N;
  profit : N;
  acos : N
}.
Arguments mkMetrics {N} _ _ _ _.
Arguments totalSales {N} _.
Arguments roas {N} _.
Arguments profit {N} _.
Arguments acos {N} _.

Section Engine.
Context {N : Type} {A : JsArith N}.
Local Open Scope js_scope.

(** [const totalSales = values.orders * values.avgOrderValue] and the
    three lines that follow it. *)
Definition computeMetrics (values : Values N) : Metrics N :=
  let totalSales := orders values * avgOrderValue values in
  let roas := if adSpend values === js_of_Z 0 then js_of_Z 0
              else totalSales / adSpend values in
  let profit := totalSales - adSpend values in
  let acos := if totalSales === js_of_Z 0 then js_of_Z 0
              else (adSpend values / totalSales) * js_of_Z 100 in
  mkMetrics totalSales roas profit acos.

(** [useState({ totalSales: 1000, roas: 2.0, profit: 500, acos: 50.0 })] *)
Definition initialMetrics : Metrics N :=
  mkMetrics (js_of_Z 1000) (js_of_Z 2) (js_of_Z 500) (js_of_Z 50).

End Engine.

(** The slider values read as exact rationals. *)
Definition Q_values (a o w : Z) : Values Q :=
  mkValues (inject_Z a) (inject_Z o) (inject_Z w).

(** The relative error of one correctly rounded binary64 operation, and
    of two in a row. *)
Definition eps_one : Q := 1 # (2 ^ 53).
Definition eps_two : Q := 3 # (2 ^ 53).

(** The float metrics [m] implement the rational metrics [q]. *)
Definition refines (m : Metrics float) (q : Metrics Q) : bool :=
  exact (totalSales m) (totalSales q) && approx eps_one (roas m) (roas q)
  && exact (profit m) (profit q) && approx eps_two (acos m) (acos q).

(** The ranges of the metrics over the slider domain, as JavaScript's
    [<=] compares them. *)
Definition metric_bounds (m : Metrics float) : bool :=
  let le x y := PrimFloat.leb (float_of_Z x) y in
  let ge x y := PrimFloat.leb y (float_of_Z x) in
  (le 0 (totalSales m) && ge 4000 (totalSales m)
   && le 0 (roas m) && ge 400 (roas m)
   && le (-1000) (profit m) && ge 4000 (profit m)
   && le 0 (acos m) && ge 20000 (acos m))%Z.

(** [refines] and [metric_bounds] checked over the whole slider domain
    (101 * 41 * 21 states). *)
Definition domain_ok (a o w : Z) : bool :=
  refines (computeMetrics (ui_values a o w)) (computeMetrics (Q_values a o w))
  && metric_bounds (computeMetrics (ui_values a o w)).

Lemma domain_check_ok : forall_ui domain_ok = true.
Proof. vm_compute. reflexivity. Qed.

Lemma domain_check_at a o w :
  on_range adSpendRange a = true -> on_range ordersRange o = true ->
  on_range avgOrderValueRange w = true ->
  refines (computeMetrics (ui_values a o w)) (computeMetrics (Q_values a o w)) = true
  /\ metric_bounds (computeMetrics (ui_values a o w)) = true.
Proof.
  intros Ha Ho Hw. apply andb_prop.
  exact (forall_ui_spec domain_ok a o w domain_check_ok Ha Ho Hw).
Qed.

(** ** The metrics at the rational instance *)

(** ** The formulas read at exact rationals *)

Section Properties.
Variable v : Values Q.

Lemma computeMetrics_Q :
  computeMetrics v =
  mkMetrics (orders v * avgOrderValue v)
    (if Qeq_bool (adSpend v) 0 then 0 else orders v * avgOrderValue v / adSpend v)
    (orders v * avgOrderValue v - adSpend v)
    (if Qeq_bool (orders v * avgOrderValue v) 0 then 0
     else adSpend v / (orders v * avgOrderValue v) * 100)%Q.
Proof. reflexivity. Qed.

(** C10: with a positive ad spend, the campaign breaks even (profit at
    least 0) exactly when ROAS is at least 1. *)
Theorem break_even_roas :
  (0 < adSpend v)%Q ->
  ((0 <= profit (computeMetrics v))%Q <-> (1 <= roas (computeMetrics v))%Q).
Proof.
  intros Ha. rewrite computeMetrics_Q. simpl.
  destruct (Qeq_bool (adSpend v) 0) eqn:E;
    [apply Qeq_bool_iff in E; rewrite E in Ha; discriminate|].
  assert (Hd : (orders v * avgOrderValue v / adSpend v * adSpend v
                == orders v * avgOrderValue v)%Q).
  { field. intros E0. rewrite E0 in Ha. discriminate. }
  split; intros Hp.
  - apply Qle_shift_div_l; [exact Ha|]. lra.
  - pose proof (Qmult_le_compat_r _ _ _ Hp (Qlt_le_weak _ _ Ha)). lra.
Qed.

End Properties.

(** ** The metrics the browser computes *)

(** C3: on every combination of slider values, the float metrics are the
    exact rational metrics of the spec: [totalSales] and [profit]
    exactly, [roas] within one rounding error (relative 2^-53) and
    [acos] within two (relative 3 * 2^-53); in particular the two
    divide-by-zero guards take the same branch in both. *)
Theorem metrics_refinement a o w :
  on_range adSpendRange a = true -> on_range ordersRange o = true ->
  on_range avgOrderValueRange w = true ->
  refines (computeMetrics (ui_values a o w)) (computeMetrics (Q_values a o w)) = true.
Proof. intros Ha Ho Hw. exact (proj1 (domain_check_at a o w Ha Ho Hw)). Qed.

(** C5: on every state the sliders produce, no metric is NaN or an
    infinity: the guards of [roas] and [acos] rule out every division
    by zero. *)
Theorem metrics_finite v :
  in_domain v ->
  (exists r, to_Q (totalSales (computeMetrics v)) = Some r)
  /\ (exists r, to_Q (roas (computeMetrics v)) = Some r)
  /\ (exists r, to_Q (profit (computeMetrics v)) = Some r)
  /\ (exists r, to_Q (acos (computeMetrics v)) = Some r).
Proof.
  intros (a & o & w & Ha & Ho & Hw & ->).
  pose proof (proj1 (domain_check_at a o w Ha Ho Hw)) as H.
  unfold refines, exact in H. repeat rewrite andb_true_iff in H.
  destruct H as [[[H1 H2] H3] H4].
  repeat split; eapply approx_finite; eassumption.
Qed.

(** C6: on every state the sliders produce, the metrics lie in their
    ranges: 0 <= totalSales <= 4000, 0 <= roas <= 400,
    -1000 <= profit <= 4000 and 0 <= acos <= 20000. *)
Theorem metrics_bounds v : in_domain v -> metric_bounds (computeMetrics v) = true.
Proof.
  intros (a & o & w & Ha & Ho & Hw & ->).
  exact (proj2 (domain_check_at a o w Ha Ho Hw)).
Qed.

(** The break-even test read on the floats the page holds, with
    JavaScript's [<=]: profit against 0, ROAS against 1 and ACOS against
    100. *)
Definition break_even_ok (a o w : Z) : bool :=
  let m := computeMetrics (ui_values a o w) in
  let le x y := PrimFloat.leb x y in
  (a =? 0)%Z
  || (Bool.eqb (le (float_of_Z 0) (profit m)) (le (float_of_Z 1) (roas m))
      && ((o * w =? 0)%Z || Bool.eqb (le (acos m) (float_of_Z 100)) (le (float_of_Z 1) (roas m))))%Z.

Lemma break_even_check : forall_ui break_even_ok = true.
Proof. vm_compute. reflexivity. Qed.

(** C9: on every state the sliders produce with a positive ad spend,
    the three metrics the page shows agree on break-even as the browser
    compares them: [profit >= 0] exactly when [roas >= 1], and, when
    there are sales, exactly when [acos <= 100]. *)
Theorem break_even_float a o w :
  on_range adSpendRange a = true -> on_range ordersRange o = true ->
  on_range avgOrderValueRange w = true -> (0 < a)%Z ->
  let m := computeMetrics (ui_values a o w) in
  PrimFloat.leb (float_of_Z 0) (profit m) = PrimFloat.leb (float_of_Z 1) (roas m)
  /\ ((0 < o * w)%Z ->
      PrimFloat.leb (acos m) (float_of_Z 100) = PrimFloat.leb (float_of_Z 1) (roas m)).
Proof.
  intros Ha Ho Hw Hpos m.
  pose proof (forall_ui_spec break_even_ok a o w break_even_check Ha Ho Hw) as H.
  unfold break_even_ok in H. fold m in H.
  destruct (Z.eqb_spec a 0) as [E|_]; [lia|]. cbn [orb] in H.
  apply andb_prop in H as [H1 H2]. split; [apply Bool.eqb_prop, H1|].
  intros Ht. destruct (Z.eqb_spec (o * w) 0) as [E|_]; [lia|]. apply Bool.eqb_prop, H2.
Qed.

(** ** Witnesses *)

Lemma metrics_refinement_witness :
  refines (computeMetrics (ui_values 100 23 5)) (computeMetrics (Q_values 100 23 5)) = true.
Proof. exact (metrics_refinement 100 23 5 eq_refl eq_refl eq_refl). Defined.

Lemma metrics_finite_witness :
  (exists r, to_Q (totalSales (computeMetrics (ui_values 0 10 50))) = Some r)
  /\ (exists r, to_Q (roas (computeMetrics (ui_values 0 10 50))) = Some r)
  /\ (exists r, to_Q (profit (computeMetrics (ui_values 0 10 50))) = Some r)
  /\ (exists r, to_Q (acos (computeMetrics (ui_values 0 10 50))) = Some r).
Proof. exact (metrics_finite _ (ui_values_in_domain 0 10 50 eq_refl eq_refl eq_refl)). Defined.

Lemma metrics_bounds_witness : metric_bounds (computeMetrics (ui_values 1000 1 5)) = true.
Proof. exact (metrics_bounds _ (ui_values_in_domain 1000 1 5 eq_refl eq_refl eq_refl)). Defined.

Lemma break_even_roas_witness :
  (0 <= profit (computeMetrics (Q_values 500 20 50)))%Q <->
  (1 <= roas (computeMetrics (Q_values 500 20 50)))%Q.
Proof. exact (break_even_roas (Q_values 500 20 50) ltac:(reflexivity)). Defined.


Lemma break_even_float_witness :
  let m := computeMetrics (ui_values 500 20 50) in
  PrimFloat.leb (float_of_Z 0) (profit m) = PrimFloat.leb (float_of_Z 1) (roas m)
  /\ ((0 < 20 * 50)%Z ->
      PrimFloat.leb (acos m) (float_of_Z 100) = PrimFloat.leb (float_of_Z 1) (roas m)).
Proof. exact (break_even_float 500 20 50 eq_refl eq_refl eq_refl ltac:(lia)). Defined.
