(* ===== verification/Chart.v ===== *)
(** * The chart: [generateChartData] (page.tsx:35-41) and its two lines

    [generateChartData] builds the 41 points [{orders: i, revenue: i *
    avgOrderValue, adSpend}]; the [LineChart] of page.tsx:137-155 plots
    them with [orders] on the x axis and two lines, [revenue] and
    [adSpend]; [pageChart] records every prop the page passes to the
    chart (margin, grid and axis strokes, each line's curve, colour,
    width and dots).  Recharts itself is not modelled: a line is the
    list of [(x, y)] pairs read from the points through the
    [dataKey]s. *)

From Stdlib Require Import String.
From Stdlib Require Import ZArith QArith List Lia Bool Floats Sorted.
From S2P Require Import Prelude JsNumber Inputs Metrics.
Import ListNotations.

Module ChartPoint.
Record t (N : Type) := mk { orders : N; revenue : N; adSpend : N }.
Arguments mk {N} _ _ _.
Arguments orders {N} _.
Arguments revenue {N} _.
Arguments adSpend {N} _.
End ChartPoint.

(** [Array.from({ length: 41 }, (_, i) => ({ orders: i,
    revenue: i * values.avgOrderValue, adSpend: values.adSpend }))] *)
Definition generateChartData {N} {A : JsArith N} (values : Values N)
    : list (ChartPoint.t N) :=
  map (fun i => ChartPoint.mk (js_of_Z (Z.of_nat i))
                  (js_mul (js_of_Z (Z.of_nat i)) (avgOrderValue values))
                  (adSpend values))
      (seq 0 41).

(** The [dataKey]s the chart reads. *)
Inductive DataKey := KOrders | KRevenue | KAdSpend.

Definition select {N} (k : DataKey) (p : ChartPoint.t N) : N :=
  match k with
  | KOrders => ChartPoint.orders p
  | KRevenue => ChartPoint.revenue p
  | KAdSpend => ChartPoint.adSpend p
  end.

(** A [<Line type="monotone" dataKey=... stroke=... strokeWidth={2}
    dot={false}/>]. *)
Record LineSpec := mkLine {
  dataKey : DataKey; curve : String.string; stroke : String.string; strokeWidth : Z;
  dot : bool }.

(** The [<LineChart margin=...>] with its [<CartesianGrid stroke>],
    [<XAxis dataKey stroke>], [<YAxis stroke>] and [<Line>]s. *)
Record LineChart := mkChart {
  margin : Z * Z * Z * Z;     (** top, right, bottom, left *)
  gridStroke : String.string;
  xKey : DataKey;
  xStroke : String.string;
  yStroke : String.string;
  lines : list LineSpec }.

Definition pageChart : LineChart :=
  mkChart (5, 20, 5, 0)%Z "#333"%string KOrders "#666"%string "#666"%string
    [ mkLine KRevenue "monotone"%string "#8B5CF6"%string 2 false;
      mkLine KAdSpend "monotone"%string "#EF4444"%string 2 false ].

Definition lineKeys (c : LineChart) : list DataKey := map dataKey (lines c).

(** The polylines the chart draws, one per [<Line>], in order. *)
Definition plotted {N} (c : LineChart) (data : list (ChartPoint.t N)) : list (list (N * N)) :=
  map (fun k => map (fun p => (select (xKey c) p, select k p)) data) (lineKeys c).

Section Shape.
Context {N : Type} {A : JsArith N}.

Lemma nth_error_generateChartData (values : Values N) (i : nat) :
  (i < 41)%nat ->
  nth_error (generateChartData values) i =
  Some (ChartPoint.mk (js_of_Z (Z.of_nat i))
          (js_mul (js_of_Z (Z.of_nat i)) (avgOrderValue values)) (adSpend values)).
Proof.
  intros Hi. unfold generateChartData.
  rewrite nth_error_map, nth_error_seq. apply Nat.ltb_lt in Hi. rewrite Hi. reflexivity.
Qed.

(** C23: the chart draws exactly two polylines over the 41 points, in
    this order: the revenue line [(i, i * avgOrderValue)] and the flat
    ad-spend line [(i, adSpend)], for [i = 0, ..., 40]. *)
Theorem plotted_lines (values : Values N) :
  plotted pageChart (generateChartData values)
  = [ map (fun i => (js_of_Z (Z.of_nat i), js_mul (js_of_Z (Z.of_nat i)) (avgOrderValue values)))
        (seq 0 41);
      map (fun i => (js_of_Z (Z.of_nat i), adSpend values)) (seq 0 41) ].
Proof.
  unfold plotted, generateChartData, pageChart, lineKeys. cbn [map lines dataKey xKey].
  rewrite !map_map. reflexivity.
Qed.

End Shape.

(** ** The chart the browser draws *)

Lemma revenue_at_orders v :
  in_domain v ->
  exists p, In p (generateChartData v) /\ ChartPoint.orders p = orders v
    /\ ChartPoint.revenue p = totalSales (computeMetrics v).
Proof.
  intros (a & o & w & Ha & Ho & Hw & ->).
  apply on_range_spec in Ho as [[Ho1 Ho2] _]; [|reflexivity]. simpl in Ho1, Ho2.
  exists (ChartPoint.mk (float_of_Z o) (float_of_Z o * float_of_Z w)%float (float_of_Z a)).
  split; [|split; reflexivity].
  apply nth_error_In with (n := Z.to_nat o).
  rewrite nth_error_generateChartData by lia.
  rewrite Z2Nat.id by lia. reflexivity.
Qed.

(** C21: on every state the sliders produce, the chart point at the
    current number of orders carries the total sales the page shows:
    the revenue line passes through [(orders, totalSales)]. *)
Theorem chart_meets_totalSales v :
  in_domain v ->
  exists p, In p (generateChartData v) /\ ChartPoint.orders p = orders v
    /\ ChartPoint.revenue p = totalSales (computeMetrics v).
Proof. exact (revenue_at_orders v). Qed.

Lemma generateChartData_revenue (values : Values float) :
  map ChartPoint.revenue (generateChartData values)
  = map (fun i => float_of_Z (Z.of_nat i) * avgOrderValue values)%float (seq 0 41).
Proof. unfold generateChartData. rewrite map_map. reflexivity. Qed.

(** The float products [i * w] of the revenue line are the exact
    integers. *)
Definition revenue_exact_at (w : Z) : bool :=
  forallb (fun i => Leibniz.eqb (float_of_Z (Z.of_nat i) * float_of_Z w)%float
                                (float_of_Z (Z.of_nat i * w)))
          (seq 0 41).

Lemma revenue_exact_check :
  forallb revenue_exact_at (range_values avgOrderValueRange) = true.
Proof. vm_compute. reflexivity. Qed.

(** C25: on every average order value the slider allows, the revenue
    line the chart draws is exactly the straight line [i * w] through
    the origin with slope the average order value, with no rounding:
    point [i] is at [i * avgOrderValue], whatever the ad spend and the
    current number of orders. *)
Theorem revenue_line_exact a o w :
  on_range avgOrderValueRange w = true ->
  map ChartPoint.revenue (generateChartData (ui_values a o w))
  = map (fun i => float_of_Z (Z.of_nat i * w)) (seq 0 41).
Proof.
  intros Hw. rewrite generateChartData_revenue. apply map_ext_in. intros i Hi.
  pose proof (forallb_grid revenue_exact_at (rmin avgOrderValueRange)
           (rstep avgOrderValueRange) (range_count avgOrderValueRange) w
           ltac:(reflexivity) revenue_exact_check Hw) as H.
  unfold revenue_exact_at in H. rewrite forallb_forall in H.
  apply Leibniz.eqb_spec, H, Hi.
Qed.

(** Where the red line is below the purple one, the page reports a
    profit. *)
Definition crossing_ok (a i w : Z) : bool :=
  Bool.eqb (PrimFloat.leb (float_of_Z a) (float_of_Z i * float_of_Z w))
           (PrimFloat.leb (float_of_Z 0) (float_of_Z i * float_of_Z w - float_of_Z a)).

Lemma crossing_check : forall_ui crossing_ok = true.
Proof. vm_compute. reflexivity. Qed.

Lemma on_range_orders (i : nat) : (i < 41)%nat -> on_range ordersRange (Z.of_nat i) = true.
Proof.
  intros Hi. apply on_range_spec; [reflexivity|]. simpl.
  rewrite Z.mod_1_r. lia.
Qed.

(** C20: on every state the sliders produce, at every x of the chart,
    the ad-spend line is at or below the revenue line exactly when the
    page would report a non-negative profit for that number of orders:
    the lines cross at the break-even point. *)
Theorem chart_crossing_is_break_even v (i : nat) :
  in_domain v -> (i < 41)%nat ->
  exists p, nth_error (generateChartData v) i = Some p
    /\ PrimFloat.leb (ChartPoint.adSpend p) (ChartPoint.revenue p)
       = PrimFloat.leb (float_of_Z 0)
           (profit (computeMetrics (set_field FOrders (float_of_Z (Z.of_nat i)) v))).
Proof.
  intros (a & o & w & Ha & Ho & Hw & ->) Hi.
  eexists. split; [apply nth_error_generateChartData; exact Hi|].
  pose proof (forall_ui_spec crossing_ok a (Z.of_nat i) w crossing_check Ha
                (on_range_orders i Hi) Hw) as H.
  apply Bool.eqb_prop in H. exact H.
Qed.

(** ** Witnesses *)

Lemma chart_crossing_is_break_even_witness :
  exists p, nth_error (generateChartData (ui_values 500 20 50)) 10 = Some p
    /\ PrimFloat.leb (ChartPoint.adSpend p) (ChartPoint.revenue p)
       = PrimFloat.leb (float_of_Z 0)
           (profit (computeMetrics (set_field FOrders (float_of_Z (Z.of_nat 10)) (ui_values 500 20 50)))).
Proof.
  exact (chart_crossing_is_break_even _ 10
           (ui_values_in_domain 500 20 50 eq_refl eq_refl eq_refl) ltac:(lia)).
Defined.

Lemma chart_meets_totalSales_witness :
  exists p, In p (generateChartData (ui_values 500 20 50))
    /\ ChartPoint.orders p = orders (ui_values 500 20 50)
    /\ ChartPoint.revenue p = totalSales (computeMetrics (ui_values 500 20 50)).
Proof.
  exact (chart_meets_totalSales _ (ui_values_in_domain 500 20 50 eq_refl eq_refl eq_refl)).
Defined.

Lemma revenue_line_exact_witness :
  map ChartPoint.revenue (generateChartData (ui_values 500 20 35))
  = map (fun i => float_of_Z (Z.of_nat i * 35)) (seq 0 41).
Proof. exact (revenue_line_exact 500 20 35 eq_refl). Defined.
