(* ===== verification/Lifecycle.v ===== *)
(** * The component's life cycle: state updates, the effect and commits

    [Home] (page.tsx:7-162) holds two pieces of React state, [values] and
    [metrics], and one passive effect with dependency [values]
    (page.tsx:21-33).  A [State] is what React holds for the component:
    the committed [values] and [metrics], the queue of updates not yet
    rendered, and whether the effect of the last commit is still to run.
    Three kinds of step interleave:
    - [step_input]: a slider's [onChange] runs and queues
      [prev => ({ ...prev, f: x })];
    - [step_flush]: React runs the pending effect, which reads the
      committed [values] and queues [setMetrics(...)];
    - [step_render]: React renders and commits the queued updates (it
      first flushes a pending effect, hence the guard); the effect is
      scheduled again when [values] changed identity, which every
      [setValues] call causes (the spread builds a new object).
    An input event whose value did not change is delivered as a step
    too: this only adds behaviours, so every safety theorem below also
    holds of the browser. *)

From Stdlib Require Import ZArith QArith List Lia Bool Floats.
From S2P Require Import Prelude JsNumber Inputs Metrics.
Import ListNotations.

(** The updates React queues for the component. *)
Inductive Update :=
| SetValues (f : Field) (x : float)       (** [setValues(prev => ({ ...prev, f: x }))] *)
| SetMetrics (m : Metrics float).         (** [setMetrics({ totalSales, roas, profit, acos })] *)

Record State := mkState {
  values : Values float;
  metrics : Metrics float;
  queue : list Update;
  effectPending : bool
}.

(** After the first commit, with the mount effect still to run. *)
Definition initialState : State := mkState initialValues initialMetrics [] true.

(** The updater passed by the slider of field [f] moved to [raw]. *)
Definition input_update (f : Field) (raw : Q) : Update :=
  SetValues f (float_of_Z (sanitize (field_range f) raw)).

Definition enqueue (u : Update) (s : State) : State :=
  mkState (values s) (metrics s) (queue s ++ [u]) (effectPending s).

(** The effect body followed by its [setMetrics] call. *)
Definition flush (s : State) : State :=
  mkState (values s) (metrics s) (queue s ++ [SetMetrics (computeMetrics (values s))]) false.

(** One queued update applied to the state being rendered; the flag
    records whether [values] got a new identity. *)
Definition apply_update (acc : Values float * Metrics float * bool) (u : Update)
    : Values float * Metrics float * bool :=
  let '(v, m, changed) := acc in
  match u with
  | SetValues f x => (set_field f x v, m, true)
  | SetMetrics m' => (v, m', changed)
  end.

Definition render (s : State) : State :=
  let '(v, m, changed) := fold_left apply_update (queue s) (values s, metrics s, false) in
  mkState v m [] changed.

Inductive step : State -> State -> Prop :=
| step_input f raw s : step s (enqueue (input_update f raw) s)
| step_flush s : effectPending s = true -> step s (flush s)
| step_render s : effectPending s = false -> queue s <> [] -> step s (render s).

Inductive reachable : State -> Prop :=
| reach_init : reachable initialState
| reach_step s s' : reachable s -> step s s' -> reachable s'.

(** The page is at rest: nothing queued, no effect to run. *)
Definition idle (s : State) : Prop := queue s = [] /\ effectPending s = false.

(** The metrics the next render will commit. *)
Definition queued_metrics (s : State) : Metrics float :=
  snd (fst (fold_left apply_update (queue s) (values s, metrics s, false))).

(** ** The queue, read field by field *)

Definition apply_values (q : list Update) (v : Values float) : Values float :=
  fold_left (fun v u => match u with SetValues f x => set_field f x v | SetMetrics _ => v end) q v.

Definition last_metrics (q : list Update) (m : Metrics float) : Metrics float :=
  fold_left (fun m u => match u with SetMetrics m' => m' | SetValues _ _ => m end) q m.

Definition has_values (q : list Update) : bool :=
  existsb (fun u => match u with SetValues _ _ => true | SetMetrics _ => false end) q.

Lemma fold_apply_update q v m c :
  fold_left apply_update q (v, m, c) = (apply_values q v, last_metrics q m, c || has_values q).
Proof.
  revert v m c. induction q as [|[f x|m'] q IH]; intros v m c; simpl.
  - rewrite orb_false_r. reflexivity.
  - rewrite IH, orb_true_r. reflexivity.
  - apply IH.
Qed.

Lemma render_spec s :
  render s = mkState (apply_values (queue s) (values s)) (last_metrics (queue s) (metrics s))
                     [] (has_values (queue s)).
Proof. unfold render. rewrite fold_apply_update. reflexivity. Qed.

Lemma queued_metrics_spec s : queued_metrics s = last_metrics (queue s) (metrics s).
Proof. unfold queued_metrics. rewrite fold_apply_update. reflexivity. Qed.

Lemma last_metrics_app q q' m : last_metrics (q ++ q') m = last_metrics q' (last_metrics q m).
Proof. unfold last_metrics. apply fold_left_app. Qed.

Lemma apply_values_app q q' v : apply_values (q ++ q') v = apply_values q' (apply_values q v).
Proof. unfold apply_values. apply fold_left_app. Qed.

Lemma has_values_false_apply q v : has_values q = false -> apply_values q v = v.
Proof.
  revert v. induction q as [|[f x|m'] q IH]; intros v H; simpl in *;
    [reflexivity | discriminate | apply IH, H].
Qed.

#[export] Hint Rewrite render_spec queued_metrics_spec last_metrics_app apply_values_app
  : roas_simpl.

(** ** The effect keeps the metrics in step with the values *)

(** Once the effect of the last commit has run, the next render commits
    the metrics of the committed values. *)
Definition metrics_in_step (s : State) : Prop :=
  effectPending s = false -> queued_metrics s = computeMetrics (values s).

Lemma metrics_in_step_init : metrics_in_step initialState.
Proof. discriminate. Qed.

Lemma metrics_in_step_step s s' : metrics_in_step s -> step s s' -> metrics_in_step s'.
Proof.
  unfold metrics_in_step. intros Hinv Hstep.
  destruct Hstep as [f raw s | s Hp | s Hp Hq]; simpl; intros Hp'.
  - rewrite queued_metrics_spec. simpl. rewrite last_metrics_app.
    rewrite <- queued_metrics_spec. apply Hinv, Hp'.
  - rewrite queued_metrics_spec. simpl. rewrite last_metrics_app. reflexivity.
  - rewrite render_spec in *. simpl in *.
    rewrite has_values_false_apply by exact Hp'.
    rewrite <- queued_metrics_spec. apply Hinv, Hp.
Qed.

Lemma reachable_metrics_in_step s : reachable s -> metrics_in_step s.
Proof.
  induction 1; [apply metrics_in_step_init | eapply metrics_in_step_step; eassumption].
Qed.

Lemma rest_consistent s :
  reachable s -> idle s -> metrics s = computeMetrics (values s).
Proof.
  intros Hr [Hq Hp]. pose proof (reachable_metrics_in_step s Hr Hp) as H.
  rewrite queued_metrics_spec, Hq in H. exact H.
Qed.

(** ** Every state holds slider values *)

Definition update_ok (u : Update) : Prop :=
  match u with
  | SetValues f x => exists z, on_range (field_range f) z = true /\ x = float_of_Z z
  | SetMetrics _ => True
  end.

Definition state_in_domain (s : State) : Prop :=
  in_domain (values s) /\ Forall update_ok (queue s).

Lemma apply_values_in_domain q v :
  Forall update_ok q -> in_domain v -> in_domain (apply_values q v).
Proof.
  intros Hq. revert v. induction Hq as [|[f x|m] q Hu Hq IH]; intros v Hv; simpl.
  - exact Hv.
  - destruct Hu as [z [Hz ->]]. apply IH, set_field_in_domain; assumption.
  - apply IH, Hv.
Qed.

Lemma state_in_domain_step s s' : state_in_domain s -> step s s' -> state_in_domain s'.
Proof.
  intros [Hv Hq] Hstep. destruct Hstep as [f raw s | s Hp | s Hp Hne]; split; simpl.
  - exact Hv.
  - apply Forall_app. split; [exact Hq|]. constructor; [|constructor].
    eexists. split; [|reflexivity]. apply sanitize_on_range, field_range_wf.
  - exact Hv.
  - apply Forall_app. split; [exact Hq|]. repeat constructor.
  - rewrite render_spec. apply apply_values_in_domain; assumption.
  - rewrite render_spec. constructor.
Qed.

Lemma reachable_state_in_domain s : reachable s -> state_in_domain s.
Proof.
  induction 1 as [|s s' _ IH Hstep].
  - split; [apply initialValues_in_domain | constructor].
  - eapply state_in_domain_step; eassumption.
Qed.

(** C1: whenever the page is at rest, it shows slider values and the
    metrics of the engine for them: finite, in their ranges, and equal
    to the exact rational metrics up to rounding. *)
Theorem idle_display_correct s :
  reachable s -> idle s ->
  exists a o w, values s = ui_values a o w
    /\ refines (metrics s) (computeMetrics (Q_values a o w)) = true
    /\ metric_bounds (metrics s) = true.
Proof.
  intros Hr Hi. rewrite (rest_consistent s Hr Hi).
  destruct (reachable_state_in_domain s Hr) as [(a & o & w & Ha & Ho & Hw & ->) _].
  exists a, o, w. split; [reflexivity|].
  exact (domain_check_at a o w Ha Ho Hw).
Qed.

(** ** React reaches rest after every input *)

Inductive steps : State -> State -> Prop :=
| steps_refl s : steps s s
| steps_cons s s' s'' : step s s' -> steps s' s'' -> steps s s''.

Lemma steps_trans s1 s2 s3 : steps s1 s2 -> steps s2 s3 -> steps s1 s3.
Proof. induction 1; eauto using steps. Qed.

Lemma reachable_steps s s' : reachable s -> steps s s' -> reachable s'.
Proof. intros Hr Hs. induction Hs; eauto using reachable. Qed.

(** What React does next without any user input: run the pending effect,
    else render what is queued. *)
Definition settle_step (s : State) : State :=
  if effectPending s then flush s
  else match queue s with [] => s | _ :: _ => render s end.

Fixpoint settle (fuel : nat) (s : State) : State :=
  match fuel with O => s | S n => settle n (settle_step s) end.

(** The steps React takes on its own: the effect runs, or the queue is
    rendered.  No user input. *)
Inductive internal_step : State -> State -> Prop :=
| internal_flush s : effectPending s = true -> internal_step s (flush s)
| internal_render s : effectPending s = false -> queue s <> [] -> internal_step s (render s).

Inductive internal_steps : State -> State -> Prop :=
| internal_refl s : internal_steps s s
| internal_cons s s' s'' : internal_step s s' -> internal_steps s' s'' -> internal_steps s s''.

Lemma internal_steps_trans s1 s2 s3 :
  internal_steps s1 s2 -> internal_steps s2 s3 -> internal_steps s1 s3.
Proof. induction 1; eauto using internal_steps. Qed.

Lemma internal_steps_steps s s' : internal_steps s s' -> steps s s'.
Proof.
  induction 1 as [|s1 s2 s3 Hst _ IH]; [apply steps_refl|].
  apply steps_cons with s2; [destruct Hst; constructor; assumption | exact IH].
Qed.

Lemma settle_step_internal s : internal_steps s (settle_step s).
Proof.
  unfold settle_step. destruct (effectPending s) eqn:Hp.
  - eapply internal_cons; [apply internal_flush, Hp | apply internal_refl].
  - destruct (queue s) eqn:Hq; [apply internal_refl|].
    eapply internal_cons; [apply internal_render; [exact Hp | rewrite Hq; discriminate]|].
    apply internal_refl.
Qed.

Lemma settle_internal n s : internal_steps s (settle n s).
Proof.
  revert s. induction n as [|n IH]; intros s; simpl;
    [apply internal_refl | eapply internal_steps_trans; [apply settle_step_internal | apply IH]].
Qed.

Lemma settle_step_idle s : idle s -> settle_step s = s.
Proof. intros [Hq Hp]. unfold settle_step. rewrite Hp, Hq. reflexivity. Qed.

Lemma settle_idle_fix n s : idle s -> settle n s = s.
Proof.
  intros Hi. induction n as [|n IH]; simpl; [reflexivity|].
  rewrite settle_step_idle by exact Hi. exact IH.
Qed.

(** The state after rendering a queue that holds no value update is at
    rest and keeps its values. *)
Lemma render_no_values s :
  effectPending (render s) = false -> idle (render s).
Proof. intros H. split; [rewrite render_spec; reflexivity | exact H]. Qed.

Lemma settle_add m n s : settle (m + n) s = settle m (settle n s).
Proof.
  revert s. induction n as [|n IH]; intros s.
  - rewrite Nat.add_0_r. reflexivity.
  - rewrite Nat.add_succ_r. simpl. apply IH.
Qed.

(** The values every queued update leads to. *)
Definition eventual_values (s : State) : Values float := apply_values (queue s) (values s).

Lemma settle_step_eventual s : eventual_values (settle_step s) = eventual_values s.
Proof.
  unfold settle_step, eventual_values. destruct (effectPending s).
  - simpl. rewrite apply_values_app. reflexivity.
  - destruct (queue s) eqn:Hq; [simpl; rewrite Hq; reflexivity|].
    rewrite render_spec, Hq. reflexivity.
Qed.

Lemma settle_eventual n s : eventual_values (settle n s) = eventual_values s.
Proof.
  revert s. induction n as [|n IH]; intros s; simpl;
    [reflexivity | rewrite IH; apply settle_step_eventual].
Qed.

Lemma settle_step_flush x : settle_step (flush x) = render (flush x).
Proof.
  unfold settle_step. simpl.
  destruct (queue x ++ _) eqn:E; [destruct (queue x); discriminate | reflexivity].
Qed.

Lemma settle_render s : idle (settle 2 (render s)).
Proof.
  change (settle 2 (render s)) with (settle_step (settle_step (render s))).
  destruct (has_values (queue s)) eqn:Hv.
  - replace (settle_step (render s)) with (flush (render s))
      by (unfold settle_step; rewrite render_spec, Hv; reflexivity).
    rewrite settle_step_flush. apply render_no_values.
    rewrite !render_spec. reflexivity.
  - assert (Hi : idle (render s)) by (apply render_no_values; rewrite render_spec; exact Hv).
    rewrite !(settle_step_idle _ Hi). exact Hi.
Qed.

Lemma settle_spec s :
  internal_steps s (settle 4 s) /\ idle (settle 4 s)
  /\ values (settle 4 s) = apply_values (queue s) (values s).
Proof.
  assert (Hi : idle (settle 4 s)).
  { destruct (effectPending s) eqn:Hp.
    - change (settle 4 s) with (settle 2 (settle_step (settle_step s))).
      replace (settle_step s) with (flush s) by (unfold settle_step; rewrite Hp; reflexivity).
      rewrite settle_step_flush. apply settle_render.
    - destruct (queue s) eqn:Hq.
      + rewrite settle_idle_fix; split; assumption.
      + change (settle 4 s) with (settle (1 + 2) (settle_step s)).
        replace (settle_step s) with (render s)
          by (unfold settle_step; rewrite Hp, Hq; reflexivity).
        rewrite settle_add, settle_idle_fix by apply settle_render. apply settle_render. }
  split; [apply settle_internal|]. split; [exact Hi|].
  pose proof (settle_eventual 4 s) as E. unfold eventual_values in E.
  destruct Hi as [Hq _]. rewrite Hq in E. exact E.
Qed.

(** ** The page refines the spec's model: recompute after every input *)

(** The spec's page: the values replaced wholesale by each input, the
    metrics a function of them. *)
Definition abstract_input (v : Values float) (ev : Field * Q) : Values float :=
  onChange (fst ev) (snd ev) v.

(** React on a discrete input event: the handler runs, then React renders
    and flushes the effect synchronously until the page is at rest. *)
Definition react_input (s : State) (ev : Field * Q) : State :=
  settle 4 (enqueue (input_update (fst ev) (snd ev)) s).

(** The page after mounting: first commit, mount effect, second commit. *)
Definition mounted : State := settle 4 initialState.

Lemma settle_reachable s : reachable s -> reachable (settle 4 s) /\ idle (settle 4 s).
Proof.
  intros Hr. destruct (settle_spec s) as [Hs [Hi _]].
  split; [eapply reachable_steps, internal_steps_steps; eassumption | exact Hi].
Qed.

Lemma react_input_spec s ev :
  reachable s -> idle s ->
  reachable (react_input s ev) /\ idle (react_input s ev)
  /\ values (react_input s ev) = abstract_input (values s) ev.
Proof.
  intros Hr [Hq Hp]. destruct ev as [f raw].
  assert (Hr' : reachable (enqueue (input_update f raw) s))
    by (eapply reach_step; [exact Hr | apply step_input]).
  destruct (settle_reachable _ Hr') as [Hr'' Hi].
  unfold react_input, abstract_input. cbn [fst snd].
  split; [exact Hr''|]. split; [exact Hi|].
  destruct (settle_spec (enqueue (input_update f raw) s)) as [_ [_ Hv]].
  rewrite Hv. simpl. rewrite Hq. reflexivity.
Qed.

(** C2: for every sequence of slider inputs, the page React runs ends
    at rest with the values the spec's page has after the same inputs,
    and shows the metrics of those values. *)
Theorem react_refines_spec (evs : list (Field * Q)) :
  let s := fold_left react_input evs mounted in
  reachable s /\ idle s
  /\ values s = fold_left abstract_input evs initialValues
  /\ metrics s = computeMetrics (values s).
Proof.
  assert (Hm : reachable mounted /\ idle mounted /\ values mounted = initialValues).
  { destruct (settle_reachable _ reach_init) as [Hr Hi].
    split; [exact Hr|]. split; [exact Hi|].
    destruct (settle_spec initialState) as [_ [_ Hv]]. exact Hv. }
  destruct Hm as (Hr & Hi & Hv). simpl. rewrite <- Hv.
  revert Hr Hi. generalize mounted as s. clear Hv.
  induction evs as [|ev evs IH]; intros s Hr Hi; simpl.
  - repeat split; try apply Hi; try exact Hr. apply rest_consistent; assumption.
  - destruct (react_input_spec s ev Hr Hi) as (Hr' & Hi' & Hv').
    rewrite <- Hv'. apply IH; assumption.
Qed.

(** C8: the first commit after an input shows the new values with the
    metrics of the old ones: React commits this render before the
    effect recomputes the metrics (one more render follows). *)
Theorem stale_commit_after_input :
  exists s, reachable s /\ queue s = [] /\ metrics s <> computeMetrics (values s).
Proof.
  set (s0 := enqueue (input_update FAdSpend 0) mounted).
  assert (Hr0 : reachable s0).
  { eapply reach_step; [apply settle_reachable, reach_init | apply step_input]. }
  exists (render s0). split; [|split].
  - eapply reach_step; [exact Hr0|].
    apply step_render; vm_compute; [reflexivity | discriminate].
  - rewrite render_spec. reflexivity.
  - intros H. apply (f_equal (fun m => Prim2SF (roas m))) in H.
    vm_compute in H. discriminate.
Qed.

(** ** The life cycle's guarantees *)

(** C4: whenever the page is at rest (nothing queued, no effect to
    run), the metrics it shows are the metrics of the values it shows. *)
Theorem idle_consistent s :
  reachable s -> idle s -> metrics s = computeMetrics (values s).
Proof. exact (rest_consistent s). Qed.

(** C7: from any state, at most four internal steps of React (effect
    runs and renders, no user input) bring the page to rest, and the
    state at rest holds the values of every queued update, applied in
    the order they were queued. *)
Theorem settle_reaches_rest s :
  internal_steps s (settle 4 s) /\ idle (settle 4 s)
  /\ values (settle 4 s) = apply_values (queue s) (values s).
Proof. exact (settle_spec s). Qed.

(** C34: every slider input is eventually shown: from any reachable
    state, after the handler of field [f] runs on [raw], steps React
    takes on its own (effect runs and renders, no further input) reach
    a state at rest that holds the sanitized value in [f], on top of
    every update queued before it, and shows the metrics of those
    values. *)
Theorem input_eventually_displayed s f raw :
  reachable s ->
  exists s', internal_steps (enqueue (input_update f raw) s) s' /\ reachable s' /\ idle s'
    /\ values s' = onChange f raw (eventual_values s)
    /\ metrics s' = computeMetrics (values s').
Proof.
  intros Hr. set (s0 := enqueue (input_update f raw) s).
  assert (Hr0 : reachable s0) by (eapply reach_step; [exact Hr | apply step_input]).
  destruct (settle_spec s0) as (Hs & Hi & Hv).
  assert (Hr' : reachable (settle 4 s0))
    by (eapply reachable_steps, internal_steps_steps; eassumption).
  exists (settle 4 s0). split; [exact Hs|]. split; [exact Hr'|]. split; [exact Hi|].
  split; [|apply rest_consistent; assumption].
  rewrite Hv. unfold s0, enqueue. simpl. rewrite apply_values_app. reflexivity.
Qed.

Lemma state_ext s t :
  values s = values t -> metrics s = metrics t -> queue s = queue t ->
  effectPending s = effectPending t -> s = t.
Proof. destruct s, t; simpl; intros; subst; reflexivity. Qed.

(** C26: inputs on two different sliders, each handled to rest, leave
    the page in the same state whichever comes first: the order of
    interactions with different sliders does not matter. *)
Theorem inputs_commute s e1 e2 :
  reachable s -> idle s -> fst e1 <> fst e2 ->
  react_input (react_input s e1) e2 = react_input (react_input s e2) e1.
Proof.
  intros Hr Hi Hf.
  destruct (react_input_spec s e1 Hr Hi) as (Hr1 & Hi1 & Hv1).
  destruct (react_input_spec s e2 Hr Hi) as (Hr2 & Hi2 & Hv2).
  destruct (react_input_spec _ e2 Hr1 Hi1) as (Hr12 & Hi12 & Hv12).
  destruct (react_input_spec _ e1 Hr2 Hi2) as (Hr21 & Hi21 & Hv21).
  assert (Hv : values (react_input (react_input s e1) e2)
               = values (react_input (react_input s e2) e1)).
  { rewrite Hv12, Hv21, Hv1, Hv2. unfold abstract_input, onChange.
    apply set_field_comm. intros E. apply Hf. symmetry. exact E. }
  apply state_ext; [exact Hv | | | ].
  - rewrite (rest_consistent _ Hr12 Hi12), (rest_consistent _ Hr21 Hi21), Hv. reflexivity.
  - rewrite (proj1 Hi12), (proj1 Hi21). reflexivity.
  - rewrite (proj2 Hi12), (proj2 Hi21). reflexivity.
Qed.

(** ** Batched inputs and the effect's runs *)

(** Several slider inputs handled before React renders: their updaters
    are queued in the order of the events. *)
Definition enqueue_inputs (evs : list (Field * Q)) (s : State) : State :=
  fold_left (fun s ev => enqueue (input_update (fst ev) (snd ev)) s) evs s.

Lemma enqueue_inputs_spec evs s :
  (reachable s -> reachable (enqueue_inputs evs s))
  /\ values (enqueue_inputs evs s) = values s
  /\ queue (enqueue_inputs evs s) = queue s ++ map (fun ev => input_update (fst ev) (snd ev)) evs.
Proof.
  revert s. induction evs as [|ev evs IH]; intros s; simpl.
  - rewrite app_nil_r. auto.
  - destruct (IH (enqueue (input_update (fst ev) (snd ev)) s)) as (H1 & H2 & H3).
    split; [intros Hr; apply H1; eapply reach_step; [exact Hr | apply step_input]|].
    split; [exact H2|]. rewrite H3. simpl. rewrite <- app_assoc. reflexivity.
Qed.

Lemma apply_values_inputs evs v :
  apply_values (map (fun ev => input_update (fst ev) (snd ev)) evs) v
  = fold_left abstract_input evs v.
Proof. revert v. induction evs as [|ev evs IH]; intros v; [reflexivity|]. apply IH. Qed.

(** C13: inputs batched into one render are applied in the order of
    the events: from a reachable state at rest, after any sequence of
    slider inputs handled before React renders, React's own steps reach
    rest with the values the spec's model has after the same inputs (a
    later input on a slider overrides an earlier one) and with the
    metrics of those values. *)
Theorem batched_inputs s evs :
  reachable s -> idle s ->
  let s' := settle 4 (enqueue_inputs evs s) in
  internal_steps (enqueue_inputs evs s) s' /\ reachable s' /\ idle s'
  /\ values s' = fold_left abstract_input evs (values s)
  /\ metrics s' = computeMetrics (values s').
Proof.
  intros Hr [Hq _] s'. destruct (enqueue_inputs_spec evs s) as (H1 & H2 & H3).
  destruct (settle_spec (enqueue_inputs evs s)) as (Hs & Hi & Hv).
  assert (Hr' : reachable s') by (eapply reachable_steps, internal_steps_steps; [apply H1, Hr | exact Hs]).
  split; [exact Hs|]. split; [exact Hr'|]. split; [exact Hi|].
  split; [|apply rest_consistent; assumption].
  unfold s'. rewrite Hv, H3, H2, Hq. apply apply_values_inputs.
Qed.

(** The number of [setMetrics] calls queued. *)
Fixpoint queued_setMetrics (q : list Update) : nat :=
  match q with
  | [] => 0
  | SetMetrics _ :: q => S (queued_setMetrics q)
  | SetValues _ _ :: q => queued_setMetrics q
  end.

Lemma queued_setMetrics_app q q' :
  queued_setMetrics (q ++ q') = (queued_setMetrics q + queued_setMetrics q')%nat.
Proof. induction q as [|[f x|m] q IH]; simpl; rewrite ?IH; reflexivity. Qed.

(** C14: in every reachable state at most one recomputation of the
    metrics is outstanding: a pending effect and the [setMetrics] calls
    in the queue number at most one together, so the effect never runs
    twice for one commit and no two metrics updates race in a render. *)
Theorem effect_at_most_once s :
  reachable s ->
  (queued_setMetrics (queue s) + (if effectPending s then 1 else 0) <= 1)%nat.
Proof.
  induction 1 as [|s s' Hr IH Hst]; [simpl; lia|].
  destruct Hst as [f raw s|s Hp|s Hp Hq]; cbn [queue effectPending enqueue flush].
  - rewrite queued_setMetrics_app. simpl. lia.
  - rewrite Hp in IH. rewrite queued_setMetrics_app. simpl. lia.
  - rewrite render_spec. simpl. destruct (has_values (queue s)); lia.
Qed.

(** ** Witnesses *)

Lemma mounted_rest : reachable mounted /\ idle mounted.
Proof. apply settle_reachable, reach_init. Qed.

Lemma idle_display_correct_witness :
  idle mounted /\ exists a o w, values mounted = ui_values a o w
    /\ refines (metrics mounted) (computeMetrics (Q_values a o w)) = true
    /\ metric_bounds (metrics mounted) = true.
Proof.
  assert (Hi : idle mounted) by (split; vm_compute; reflexivity).
  split; [exact Hi|]. exact (idle_display_correct mounted (proj1 mounted_rest) Hi).
Defined.

Lemma idle_consistent_witness :
  idle mounted /\ metrics mounted = computeMetrics (values mounted).
Proof.
  assert (Hi : idle mounted) by (split; vm_compute; reflexivity).
  split; [exact Hi|]. exact (idle_consistent mounted (proj1 mounted_rest) Hi).
Defined.

Lemma input_eventually_displayed_witness :
  exists s', internal_steps (enqueue (input_update FOrders 23) mounted) s' /\ reachable s' /\ idle s'
    /\ values s' = onChange FOrders 23 (eventual_values mounted)
    /\ metrics s' = computeMetrics (values s').
Proof. exact (input_eventually_displayed mounted FOrders 23 (proj1 mounted_rest)). Defined.

Lemma inputs_commute_witness :
  react_input (react_input mounted (FAdSpend, 100%Q)) (FOrders, 7%Q)
  = react_input (react_input mounted (FOrders, 7%Q)) (FAdSpend, 100%Q).
Proof.
  exact (inputs_commute mounted (FAdSpend, 100%Q) (FOrders, 7%Q)
           (proj1 mounted_rest) (proj2 mounted_rest) ltac:(discriminate)).
Defined.

Lemma batched_inputs_witness :
  let s' := settle 4 (enqueue_inputs [(FOrders, 7%Q); (FOrders, 9%Q)] mounted) in
  internal_steps (enqueue_inputs [(FOrders, 7%Q); (FOrders, 9%Q)] mounted) s' /\ reachable s'
  /\ idle s' /\ values s' = fold_left abstract_input [(FOrders, 7%Q); (FOrders, 9%Q)] (values mounted)
  /\ metrics s' = computeMetrics (values s').
Proof.
  exact (batched_inputs mounted [(FOrders, 7%Q); (FOrders, 9%Q)]
           (proj1 mounted_rest) (proj2 mounted_rest)).
Defined.

Lemma effect_at_most_once_witness :
  (queued_setMetrics (queue mounted) + (if effectPending mounted then 1 else 0) <= 1)%nat.
Proof. exact (effect_at_most_once mounted (proj1 mounted_rest)). Defined.
