(* ===== verification/Display.v ===== *)
(** * What the page prints: number formatting, metric cards, explanation

    The text of page.tsx:49-129.  Numbers reach the page in two ways:
    [{x}] and template text [${x}] print [Number::toString(x)]
    ([number_toString]), and [x.toFixed(d)] prints [toFixed x d]; both
    are ECMAScript's algorithms (ECMA-262, Number::toString and
    Number.prototype.toFixed), read on the exact value of the float.
    [view] assembles the slider labels, the four metric cards and the
    three explanation paragraphs from [values] and [metrics].  The
    theorems: the cards [toFixed] prints round to one place and have
    the shape of a decimal (C27, C31); on every slider state the
    integers print as their digits (C28), the ROAS and ACOS cards and
    the ROAS of the second paragraph are within a rounding of the exact
    ratios (C29, C11, C12), the "additional" share has the sign of the
    loss (C30), and the guards keep "Infinity" off the cards (C22); the
    string a range input hands over reads back by [Number] (C24).  Two
    examples print the text at concrete states for the findings. *)

From Stdlib Require Import ZArith QArith Qabs Qround Qpower Lqa List Lia Bool Floats FloatAxioms.
From Stdlib Require Import NArith String Ascii DecimalString DecimalN.
From S2P Require Import Prelude JsNumber Inputs Metrics.
Import ListNotations.

(** ** Digit strings *)

(** The decimal digits of a natural number, without leading zeros ("0"
    for zero). *)
Definition N_to_string (n : N) : string :=
  NilEmpty.string_of_uint (N.to_uint n).

Definition digit_of (c : ascii) : option N :=
  let k := N_of_ascii c in
  if (48 <=? k)%N && (k <=? 57)%N then Some (k - 48)%N else None.

Fixpoint digits_value_acc (s : string) (acc : N) : option N :=
  match s with
  | EmptyString => Some acc
  | String c s' =>
      match digit_of c with
      | Some d => digits_value_acc s' (10 * acc + d)%N
      | None => None
      end
  end.

(** The value of a non-empty string of decimal digits. *)
Definition digits_value (s : string) : option N :=
  match s with EmptyString => None | _ => digits_value_acc s 0 end.

Fixpoint zeros (k : nat) : string :=
  match k with O => EmptyString | S k => String "0" (zeros k) end.

Lemma digits_value_acc_uint (d : Decimal.uint) (acc : positive) :
  digits_value_acc (NilEmpty.string_of_uint d) (Npos acc) = Some (Npos (Pos.of_uint_acc d acc)).
Proof.
  revert acc. induction d; intros acc; cbn -[N.mul N.add Pos.mul Pos.add];
    try reflexivity; rewrite <- IHd;
    match goal with |- context [digit_of ?c] =>
      let v := eval vm_compute in (digit_of c) in change (digit_of c) with v end;
    cbv iota beta; f_equal; lia.
Qed.

Lemma digits_value_acc_zero_uint (d : Decimal.uint) :
  digits_value_acc (NilEmpty.string_of_uint d) 0 = Some (N.of_uint d).
Proof.
  induction d; simpl; try reflexivity; try exact IHd;
    apply digits_value_acc_uint.
Qed.

Lemma N_to_string_nonempty n : N_to_string n <> EmptyString.
Proof.
  unfold N_to_string. destruct n as [|p]; [discriminate|].
  simpl. pose proof (DecimalPos.Unsigned.to_uint_nonnil p) as H.
  destruct (Pos.to_uint p); simpl; congruence.
Qed.

(** Printing a number and reading it back gives the number. *)
Lemma digits_value_N_to_string n : digits_value (N_to_string n) = Some n.
Proof.
  unfold digits_value. pose proof (N_to_string_nonempty n) as Hne.
  destruct (N_to_string n) eqn:E; [contradiction|]. rewrite <- E.
  unfold N_to_string. rewrite digits_value_acc_zero_uint, DecimalN.Unsigned.of_to.
  reflexivity.
Qed.

Lemma digits_value_acc_app s t acc :
  digits_value_acc (s ++ t) acc =
  match digits_value_acc s acc with Some v => digits_value_acc t v | None => None end.
Proof.
  revert acc. induction s as [|c s IH]; intros acc; simpl; [reflexivity|].
  destruct (digit_of c); [apply IH | reflexivity].
Qed.

Lemma digits_value_acc_zeros k acc :
  digits_value_acc (zeros k) acc = Some (acc * 10 ^ N.of_nat k)%N.
Proof.
  revert acc. induction k as [|k IH]; intros acc; cbn [zeros digits_value_acc].
  - f_equal. simpl N.of_nat. rewrite N.pow_0_r. lia.
  - change (digit_of "0") with (Some 0%N). cbv iota beta.
    rewrite IH. f_equal. rewrite Nat2N.inj_succ, N.pow_succ_r'. lia.
Qed.

Lemma digits_value_acc_shift s acc :
  digits_value_acc s acc =
  option_map (fun v => acc * 10 ^ N.of_nat (String.length s) + v)%N (digits_value_acc s 0).
Proof.
  revert acc. induction s as [|c s IH]; intros acc; cbn [digits_value_acc String.length].
  - simpl. f_equal. lia.
  - destruct (digit_of c) as [d|]; [|reflexivity].
    rewrite (IH (10 * acc + d)%N), (IH (10 * 0 + d)%N).
    destruct (digits_value_acc s 0); cbn [option_map]; [|reflexivity].
    f_equal. rewrite Nat2N.inj_succ, N.pow_succ_r'. lia.
Qed.

(** ** [Number::toString] (ECMA-262, 6.1.6.1.20) *)

Definition Qltb (a b : Q) : bool := negb (Qle_bool b a).

(** "The Number value for [q] is [x]": [q] lies in the interval that
    rounds to nearest (ties to even) onto the positive finite float [x]. *)
Definition rounds_to (q : Q) (x : float) : bool :=
  match to_Q x, to_Q (next_down x) with
  | Some r, Some lo =>
      let hi := match to_Q (next_up x) with Some h => h | None => (r + (r - lo))%Q end in
      let a := ((lo + r) / 2)%Q in
      let b := ((r + hi) / 2)%Q in
      let even := match Prim2SF x with
                  | S754_finite _ m _ => match m with xO _ => true | _ => false end
                  | _ => false
                  end in
      (Qltb a q && Qltb q b) || (even && (Qeq_bool q a || Qeq_bool q b))
  | _, _ => false
  end.

(** [floor (log10 z)] for [z > 0]: one less than its number of digits. *)
Definition Zlog10 (z : Z) : Z := (Z.of_nat (String.length (N_to_string (Z.to_N z))) - 1)%Z.

(** The exponent [d] with [10^d <= r < 10^(d+1)], for [r > 0]. *)
Definition dec_exp (r : Q) : Z :=
  let d0 := (Zlog10 (Qnum r) - Zlog10 (Zpos (Qden r)))%Z in
  if Qle_bool (Qpower 10 d0) r then d0 else (d0 - 1)%Z.

(** The integer nearest to [t], the even one on a tie. *)
Definition round_half_even (t : Q) : Z :=
  let s0 := Qfloor t in
  let frac := (t - inject_Z s0)%Q in
  if Qltb (1 # 2) frac then (s0 + 1)%Z
  else if Qeq_bool frac (1 # 2) then (if Z.even s0 then s0 else s0 + 1)%Z
  else s0.

(** The [s] with [k] digits whose value [s * 10^(n - k)] is closest to
    [r] and rounds to [x], if there is one. *)
Definition digits_candidate (x : float) (r : Q) (k n : Z) : option (Z * Z * Z) :=
  let s := round_half_even (r / Qpower 10 (n - k)) in
  if (10 ^ (k - 1) <=? s)%Z && (s <? 10 ^ k)%Z
     && rounds_to (inject_Z s * Qpower 10 (n - k)) x
  then Some (k, n, s) else None.

Fixpoint first_some {A B} (f : A -> option B) (l : list A) : option B :=
  match l with
  | [] => None
  | a :: l => match f a with Some b => Some b | None => first_some f l end
  end.

(** The [k], [n], [s] of step 5: [k] as small as possible. *)
Definition shortest (x : float) (r : Q) : Z * Z * Z :=
  let d := dec_exp r in
  let cands := flat_map (fun k => [(k, d + 1); (k, d + 2)]%Z) (map Z.of_nat (seq 1 17)) in
  match first_some (fun kn => digits_candidate x r (fst kn) (snd kn)) cands with
  | Some t => t
  | None => (17%Z, (d + 1)%Z, round_half_even (r / Qpower 10 (d + 1 - 17)))
  end.

Definition exponent_string (e : Z) : string :=
  ((if (e <? 0)%Z then "-" else "+") ++ N_to_string (Z.abs_N e))%string.

(** Steps 6 to 10: the digits of [s] placed by [k] and [n]. *)
Definition place_digits (k n s : Z) : string :=
  let ds := N_to_string (Z.to_N s) in
  if (k <=? n)%Z && (n <=? 21)%Z then (ds ++ zeros (Z.to_nat (n - k)))%string
  else if (0 <? n)%Z && (n <=? 21)%Z then
    (substring 0 (Z.to_nat n) ds ++ "." ++ substring (Z.to_nat n) (Z.to_nat (k - n)) ds)%string
  else if (-6 <? n)%Z && (n <=? 0)%Z then ("0." ++ zeros (Z.to_nat (- n)) ++ ds)%string
  else if (k =? 1)%Z then (ds ++ "e" ++ exponent_string (n - 1))%string
  else (substring 0 1 ds ++ "." ++ substring 1 (Z.to_nat (k - 1)) ds ++ "e"
        ++ exponent_string (n - 1))%string.

Local Open Scope string_scope.

Definition number_toString (x : float) : string :=
  if PrimFloat.is_nan x then "NaN"
  else if PrimFloat.is_zero x then "0"
  else
    let sign := if PrimFloat.ltb x 0 then "-" else "" in
    let y := PrimFloat.abs x in
    if PrimFloat.is_infinity y then (sign ++ "Infinity")%string
    else match to_Q y with
         | Some r => let '(k, n, s) := shortest y r in (sign ++ place_digits k n s)%string
         | None => "NaN"
         end.

(** ** [Number.prototype.toFixed] (ECMA-262, 21.1.3.3) *)

(** The [n] of step 10: [n / 10^f - r] as close to zero as possible, the
    larger [n] on a tie, for [r >= 0]. *)
Definition fixed_n (r : Q) (f : nat) : N :=
  Z.to_N (Qfloor (r * inject_Z (10 ^ Z.of_nat f) + (1 # 2))).

Local Open Scope nat_scope.

Definition fixed_string (n : N) (f : nat) : string :=
  let m := N_to_string n in
  match f with
  | O => m
  | S _ =>
      let k := String.length m in
      let '(m, k) := if Nat.leb k f then ((zeros (f + 1 - k) ++ m)%string, (f + 1)%nat)
                     else (m, k) in
      (substring 0 (k - f) m ++ "." ++ substring (k - f) f m)%string
  end.

Definition toFixed (x : float) (f : nat) : string :=
  match to_Q x with
  | None => number_toString x
  | Some r =>
      let s := if Qle_bool 0 r then ""%string else "-"%string in
      if Qle_bool (inject_Z (10 ^ 21)) (Qabs r) then (s ++ number_toString (PrimFloat.abs x))%string
      else (s ++ fixed_string (fixed_n (Qabs r) f) f)%string
  end.

(** ** Reading a printed decimal back *)

Fixpoint split_dot (s : string) : string * option string :=
  match s with
  | EmptyString => (EmptyString, None)
  | String c s' =>
      if Ascii.eqb c "."%char then (EmptyString, Some s')
      else let '(a, b) := split_dot s' in (String c a, b)
  end.

Definition unsigned_decimal_value (body : string) : option Q :=
  match split_dot body with
  | (a, None) => option_map (fun v => inject_Z (Z.of_N v)) (digits_value a)
  | (a, Some b) =>
      match digits_value a, digits_value b with
      | Some va, Some vb =>
          Some (inject_Z (Z.of_N va)
                + inject_Z (Z.of_N vb) / inject_Z (10 ^ Z.of_nat (String.length b)))%Q
      | _, _ => None
      end
  end.

(** The rational a decimal such as "-12.50" denotes. *)
Definition decimal_value (s : string) : option Q :=
  match s with
  | String c body =>
      if Ascii.eqb c "-"%char then option_map Qopp (unsigned_decimal_value body)
      else unsigned_decimal_value s
  | EmptyString => None
  end.

(** ** Lemmas on digit strings *)

Lemma string_length_app (s t : string) : String.length (s ++ t) = String.length s + String.length t.
Proof. induction s as [|c s IH]; simpl; [reflexivity | rewrite IH; reflexivity]. Qed.

Lemma length_zeros k : String.length (zeros k) = k.
Proof. induction k as [|k IH]; simpl; [reflexivity | rewrite IH; reflexivity]. Qed.

Lemma substring_split (m : string) (j : nat) :
  j <= String.length m ->
  (substring 0 j m ++ substring j (String.length m - j) m)%string = m.
Proof.
  revert j. induction m as [|c m IH]; intros j Hj; simpl in *.
  - destruct j; reflexivity.
  - destruct j as [|j]; simpl.
    + f_equal. clear. induction m; simpl; congruence.
    + f_equal. apply IH. lia.
Qed.

Lemma length_substring (m : string) (j l : nat) :
  j + l <= String.length m -> String.length (substring j l m) = l.
Proof.
  revert j l. induction m as [|c m IH]; intros j l H; simpl in *.
  - destruct j, l; simpl in *; lia.
  - destruct j as [|j].
    + destruct l as [|l]; [reflexivity|]. simpl. f_equal. apply IH. lia.
    + apply IH. lia.
Qed.

Lemma digit_not_dot c d : digit_of c = Some d -> Ascii.eqb c "."%char = false.
Proof. destruct (Ascii.eqb_spec c "."%char) as [->|]; [discriminate | reflexivity]. Qed.

Lemma digit_not_minus c d : digit_of c = Some d -> Ascii.eqb c "-"%char = false.
Proof. destruct (Ascii.eqb_spec c "-"%char) as [->|]; [discriminate | reflexivity]. Qed.

Lemma split_dot_digits a acc v tail :
  digits_value_acc a acc = Some v ->
  split_dot (a ++ tail) = let '(a', b) := split_dot tail in ((a ++ a')%string, b).
Proof.
  revert acc. induction a as [|c a IH]; intros acc H; simpl in *.
  - destruct (split_dot tail); reflexivity.
  - destruct (digit_of c) as [d|] eqn:Hd; [|discriminate].
    rewrite (digit_not_dot c d Hd), (IH _ H). destruct (split_dot tail); reflexivity.
Qed.

Lemma digits_value_app_inv a b v :
  digits_value_acc (a ++ b) 0 = Some v ->
  exists va vb, digits_value_acc a 0 = Some va /\ digits_value_acc b 0 = Some vb
    /\ v = (va * 10 ^ N.of_nat (String.length b) + vb)%N.
Proof.
  rewrite digits_value_acc_app. destruct (digits_value_acc a 0) as [va|]; [|discriminate].
  rewrite digits_value_acc_shift. destruct (digits_value_acc b 0) as [vb|]; [|discriminate].
  simpl. intros [= <-]. eauto.
Qed.

Lemma string_app_nil_r (s : string) : (s ++ "")%string = s.
Proof. induction s as [|c s IH]; simpl; [reflexivity | rewrite IH; reflexivity]. Qed.

Lemma digits_value_nonempty s v : s <> EmptyString -> digits_value_acc s 0 = Some v ->
  digits_value s = Some v.
Proof. destruct s; [contradiction | intros _ H; exact H]. Qed.

Lemma pow10_Q_nonzero f : ~ (inject_Z (10 ^ Z.of_nat f) == 0)%Q.
Proof.
  change 0%Q with (inject_Z 0). rewrite inject_Z_injective.
  apply Z.pow_nonzero; lia.
Qed.

Lemma Z_of_N_pow10 f : Z.of_N (10 ^ N.of_nat f) = (10 ^ Z.of_nat f)%Z.
Proof. rewrite N2Z.inj_pow, nat_N_Z. reflexivity. Qed.

(** A digit string, a dot and [f] more digits denote the digits read
    as one number over [10^f]. *)
Lemma unsigned_decimal_value_point a b n :
  a <> EmptyString -> b <> EmptyString -> digits_value_acc (a ++ b) 0 = Some n ->
  exists q, unsigned_decimal_value (a ++ "." ++ b) = Some q
    /\ (q == inject_Z (Z.of_N n) / inject_Z (10 ^ Z.of_nat (String.length b)))%Q.
Proof.
  intros Ha Hb H. destruct (digits_value_app_inv a b n H) as (va & vb & Hva & Hvb & ->).
  unfold unsigned_decimal_value. rewrite (split_dot_digits a 0 va _ Hva). simpl.
  rewrite string_app_nil_r, (digits_value_nonempty a va Ha Hva),
    (digits_value_nonempty b vb Hb Hvb).
  eexists. split; [reflexivity|].
  rewrite N2Z.inj_add, N2Z.inj_mul, Z_of_N_pow10, inject_Z_plus, inject_Z_mult.
  field. apply pow10_Q_nonzero.
Qed.

(** [fixed_string n f] for [f > 0] is [m] cut before its last [f]
    digits, where [m] is [n] padded with zeros to more than [f] digits. *)
Lemma fixed_string_parts n f :
  (0 < f)%nat ->
  exists a b, fixed_string n f = (a ++ "." ++ b)%string /\ String.length b = f
    /\ a <> EmptyString /\ digits_value_acc (a ++ b) 0 = Some n.
Proof.
  intros Hf. destruct f as [|f']; [lia|].
  assert (Hn : digits_value_acc (N_to_string n) 0 = Some n).
  { pose proof (digits_value_N_to_string n) as H. unfold digits_value in H.
    destruct (N_to_string n); [discriminate | exact H]. }
  assert (Hne := N_to_string_nonempty n).
  assert (Hl : (1 <= String.length (N_to_string n))%nat)
    by (destruct (N_to_string n); [contradiction | simpl; lia]).
  assert (Hcut : forall m, (S f' < String.length m)%nat -> digits_value_acc m 0 = Some n ->
    exists a b, (substring 0 (String.length m - S f') m ++ "."
                 ++ substring (String.length m - S f') (S f') m)%string = (a ++ "." ++ b)%string
      /\ String.length b = S f' /\ a <> EmptyString /\ digits_value_acc (a ++ b) 0 = Some n).
  { intros m Hm Hv. eexists _, _. split; [reflexivity|].
    split; [apply length_substring; lia|]. split.
    - intros E. apply (f_equal String.length) in E.
      rewrite length_substring in E by lia. simpl in E. lia.
    - replace (S f') with (String.length m - (String.length m - S f'))%nat at 3 by lia.
      rewrite substring_split by lia. exact Hv. }
  unfold fixed_string. fold (N_to_string n).
  destruct (Nat.leb (String.length (N_to_string n)) (S f')) eqn:E.
  - apply Nat.leb_le in E.
    set (m := (zeros (S f' + 1 - String.length (N_to_string n)) ++ N_to_string n)%string).
    assert (Hm : String.length m = (S f' + 1)%nat)
      by (unfold m; rewrite string_length_app, length_zeros; lia).
    rewrite <- Hm. apply Hcut; [lia|].
    unfold m. rewrite digits_value_acc_app, digits_value_acc_zeros. exact Hn.
  - apply Nat.leb_gt in E. apply Hcut; assumption.
Qed.

Lemma digits_value_head c t acc v :
  digits_value_acc (String c t) acc = Some v -> exists d, digit_of c = Some d.
Proof. simpl. destruct (digit_of c) as [d|]; [eauto | discriminate]. Qed.

Lemma fixed_string_value n f :
  exists q, unsigned_decimal_value (fixed_string n f) = Some q
    /\ (q == inject_Z (Z.of_N n) / inject_Z (10 ^ Z.of_nat f))%Q
    /\ exists c t d, fixed_string n f = String c t /\ digit_of c = Some d.
Proof.
  destruct f as [|f'].
  - assert (Hn := digits_value_N_to_string n). assert (Hne := N_to_string_nonempty n).
    unfold fixed_string, unsigned_decimal_value.
    destruct (N_to_string n) as [|c t] eqn:E; [contradiction|].
    unfold digits_value in Hn.
    rewrite <- (string_app_nil_r (String c t)), (split_dot_digits _ 0 n _ Hn).
    simpl split_dot. rewrite !string_app_nil_r. unfold digits_value. rewrite Hn.
    eexists. split; [reflexivity|]. split; [simpl; field|].
    destruct (digits_value_head c t 0 n Hn) as [d Hd]. eauto.
  - destruct (fixed_string_parts n (S f') ltac:(lia)) as (a & b & -> & Hb & Ha & Hv).
    assert (Hb' : b <> EmptyString) by (intros ->; simpl in Hb; lia).
    destruct (unsigned_decimal_value_point a b n Ha Hb' Hv) as (q & Hq & Heq).
    exists q. split; [exact Hq|]. split; [rewrite Heq, Hb; reflexivity|].
    destruct a as [|c t]; [contradiction|].
    destruct (digits_value_head c (t ++ b) 0 n Hv) as [d Hd]. simpl. eauto.
Qed.

(** The [n] of [toFixed] is within half a unit of the last place. *)
Lemma fixed_n_error r f :
  (0 <= r)%Q ->
  (Qabs (inject_Z (Z.of_N (fixed_n r f)) / inject_Z (10 ^ Z.of_nat f) - r)
   <= (1 # 2) / inject_Z (10 ^ Z.of_nat f))%Q.
Proof.
  intros Hr. unfold fixed_n. set (P := inject_Z (10 ^ Z.of_nat f)).
  assert (HP : (0 < P)%Q).
  { unfold P. change 0%Q with (inject_Z 0). rewrite <- Zlt_Qlt.
    apply Z.pow_pos_nonneg; lia. }
  set (t := (r * P + (1 # 2))%Q).
  assert (Ht : (0 <= t)%Q) by (unfold t; nra).
  pose proof (Qfloor_le t) as H1. pose proof (Qlt_floor t) as H2.
  rewrite inject_Z_plus in H2. change (inject_Z 1) with 1%Q in H2.
  rewrite Z2N.id by (apply Qfloor_nonneg; exact Ht).
  set (z := inject_Z (Qfloor t)) in *.
  assert (E : (z / P - r == (z - r * P) * / P)%Q) by (field; lra).
  rewrite E. apply Qabs_Qle_condition. unfold Qdiv.
  assert (Hw : (0 <= / P)%Q) by (apply Qinv_le_0_compat; lra).
  split.
  - setoid_replace (- ((1 # 2) * / P))%Q with ((- (1 # 2)) * / P)%Q by ring.
    apply Qmult_le_compat_r; [unfold t in *; lra | exact Hw].
  - apply Qmult_le_compat_r; [unfold t in *; lra | exact Hw].
Qed.

Lemma error_transfer (q p r a e : Q) :
  (q == p)%Q -> (a == r)%Q -> (Qabs (p - a) <= e)%Q -> (Qabs (q - r) <= e)%Q.
Proof. intros Hq Ha H. rewrite Hq, <- Ha. exact H. Qed.

Lemma error_transfer_neg (q p r a e : Q) :
  (q == p)%Q -> (a == - r)%Q -> (Qabs (p - a) <= e)%Q -> (Qabs (- q - r) <= e)%Q.
Proof.
  intros Hq Ha H. setoid_replace (- q - r)%Q with (- (p - a))%Q by (rewrite Hq, Ha; ring).
  rewrite Qabs_opp. exact H.
Qed.

Lemma decimal_value_digit_head c t :
  (exists d, digit_of c = Some d) -> decimal_value (String c t) = unsigned_decimal_value (String c t).
Proof. intros [d Hd]. simpl. rewrite (digit_not_minus c d Hd). reflexivity. Qed.

Lemma toFixed_fixed x f r :
  to_Q x = Some r -> (Qabs r < inject_Z (10 ^ 21))%Q ->
  toFixed x f = ((if Qle_bool 0 r then "" else "-") ++ fixed_string (fixed_n (Qabs r) f) f)%string.
Proof.
  intros Hx Hr. unfold toFixed. rewrite Hx.
  destruct (Qle_bool (inject_Z (10 ^ 21)) (Qabs r)) eqn:E; [|reflexivity].
  apply Qle_bool_iff in E. exfalso. apply (Qlt_not_le _ _ Hr E).
Qed.

Lemma toFixed_error x f r :
  to_Q x = Some r -> (Qabs r < inject_Z (10 ^ 21))%Q ->
  exists q, decimal_value (toFixed x f) = Some q
    /\ (Qabs (q - r) <= (1 # 2) / inject_Z (10 ^ Z.of_nat f))%Q.
Proof.
  intros Hx Hr. rewrite (toFixed_fixed x f r Hx Hr).
  destruct (fixed_string_value (fixed_n (Qabs r) f) f) as (q & Hq & Heq & c & t & d & Ht & Hd).
  pose proof (fixed_n_error (Qabs r) f (Qabs_nonneg r)) as Herr.
  rewrite Ht in *. destruct (Qle_bool 0 r) eqn:Hs.
  - apply Qle_bool_iff in Hs. exists q. simpl (_ ++ _)%string.
    rewrite decimal_value_digit_head by eauto. rewrite Hq. split; [reflexivity|].
    exact (error_transfer _ _ _ _ _ Heq (Qabs_pos r Hs) Herr).
  - exists (- q)%Q. simpl (_ ++ _)%string. unfold decimal_value. cbv iota beta.
    rewrite Ascii.eqb_refl, Hq. split; [reflexivity|].
    apply (error_transfer_neg q _ r (Qabs r) _ Heq); [|exact Herr].
    apply Qabs_neg. apply Qlt_le_weak, Qnot_le_lt. intros H.
    apply Qle_bool_iff in H. congruence.
Qed.

Definition is_digits (s : string) : bool :=
  match digits_value s with Some _ => true | None => false end.

(** [s] is an optional minus sign, a non-empty run of digits, a point
    and exactly [f] digits. *)
Definition decimal_shape (s : string) (f : nat) : Prop :=
  exists sgn a b, s = (sgn ++ a ++ "." ++ b)%string
    /\ (sgn = ""%string \/ sgn = "-"%string) /\ String.length b = f
    /\ is_digits a = true /\ is_digits b = true.

Lemma toFixed_parts x f r :
  to_Q x = Some r -> (Qabs r < inject_Z (10 ^ 21))%Q -> (0 < f)%nat ->
  decimal_shape (toFixed x f) f.
Proof.
  intros Hx Hr Hf. rewrite (toFixed_fixed x f r Hx Hr).
  destruct (fixed_string_parts (fixed_n (Qabs r) f) f Hf) as (a & b & -> & Hb & Ha & Hv).
  destruct (digits_value_app_inv a b _ Hv) as (va & vb & Hva & Hvb & _).
  assert (Hb' : b <> EmptyString) by (intros ->; simpl in Hb; lia).
  exists (if Qle_bool 0 r then ""%string else "-"%string), a, b.
  split; [reflexivity|]. split; [destruct (Qle_bool 0 r); auto|]. split; [exact Hb|].
  unfold is_digits. rewrite (digits_value_nonempty a va Ha Hva), (digits_value_nonempty b vb Hb' Hvb).
  split; reflexivity.
Qed.

(** ** Integers as the page prints them *)

Definition Z_to_string (z : Z) : string :=
  if (z <? 0)%Z then ("-" ++ N_to_string (Z.abs_N z))%string else N_to_string (Z.to_N z).

(** ** The string a range input hands to its handler

    [e.target.value] of a range input is its sanitized value serialized
    as a number ("the best representation of the number as a
    floating-point number", i.e. [Number::toString]); the handler reads
    it back with [Number(e.target.value)] (page.tsx:57, 75, 93). *)
Definition value_string (r : RangeSpec) (raw : Q) : string :=
  number_toString (float_of_Z (sanitize r raw)).

(** [Number(s)] (ECMA-262 StringToNumber) on the strings a range input
    with integral [min] and [step] produces: an optional minus sign and
    decimal digits below 2^53 denote that integer exactly, the empty
    string denotes 0; [None] marks the strings this model does not read
    (fractions, exponents, whitespace, larger literals, other text). *)
Definition string_to_number (s : string) : option float :=
  let of_digits (t : string) (neg : bool) :=
    match digits_value t with
    | Some n => if (n <? 2 ^ 53)%N
                then Some (float_of_Z (if neg then - Z.of_N n else Z.of_N n)) else None
    | None => None
    end in
  match s with
  | EmptyString => Some (float_of_Z 0)
  | String c t => if Ascii.eqb c "-"%char then of_digits t true else of_digits s false
  end.

Definition int_toString_ok (z : Z) : bool :=
  String.eqb (number_toString (float_of_Z z)) (Z_to_string z).

(** The integers a slider state prints are multiples of 5 in
    [-1000, 4000] (ad spend, average order value, total sales, profit)
    or numbers of orders in [0, 40]. *)
Lemma int_toString_check :
  forallb int_toString_ok (grid (-1000) 5 1001) && forallb int_toString_ok (grid 0 1 41) = true.
Proof. vm_compute. reflexivity. Qed.

Definition printed_int (z : Z) : Prop :=
  ((5 | z) /\ -1000 <= z <= 4000)%Z \/ (0 <= z <= 40)%Z.

(** On the integers the page prints, [Number::toString] is the decimal
    digits, with a minus sign when negative. *)
Lemma number_toString_int z :
  printed_int z -> number_toString (float_of_Z z) = Z_to_string z.
Proof.
  pose proof int_toString_check as H. apply andb_prop in H as [H5 H1].
  intros Hz. apply String.eqb_eq. destruct Hz as [[Hd Hz] | Hz].
  - apply (forallb_grid int_toString_ok (-1000) 5 1001 z ltac:(lia) H5).
    unfold on_grid. apply andb_true_intro; split; [apply andb_true_intro; split; apply Z.leb_le; lia|].
    apply Z.eqb_eq, Z.mod_divide; [lia|]. apply Z.divide_sub_r; [exact Hd|]. exists (-200)%Z. reflexivity.
  - apply (forallb_grid int_toString_ok 0 1 41 z ltac:(lia) H1).
    unfold on_grid. rewrite Z.mod_1_r. apply andb_true_intro; split; [|reflexivity].
    apply andb_true_intro; split; apply Z.leb_le; lia.
Qed.

(** ** The text of the page *)

Record View := mkView {
  adSpendLabel : string;         (** [<span>${values.adSpend}</span>] *)
  ordersLabel : string;          (** [<span>{values.orders}</span>] *)
  avgOrderValueLabel : string;   (** [<span>{values.avgOrderValue}</span>] *)
  totalSalesCard : string;       (** [${metrics.totalSales}] *)
  roasCard : string;             (** [{metrics.roas.toFixed(1)}x] *)
  profitCard : string;           (** [${metrics.profit}] *)
  acosCard : string;             (** [{metrics.acos.toFixed(1)}%] *)
  explanation : list string      (** the three paragraphs *)
}.

(** [(100 - metrics.acos)], the share of revenue the page says is left. *)
Definition remaining_share (metrics : Metrics float) : float :=
  js_sub (js_of_Z 100) (acos metrics).

Definition view (values : Values float) (metrics : Metrics float) : View :=
  let ts := number_toString in
  mkView
    ("$" ++ ts (adSpend values))
    (ts (orders values))
    (ts (avgOrderValue values))
    ("$" ++ ts (totalSales metrics))
    (toFixed (roas metrics) 1 ++ "x")
    ("$" ++ ts (profit metrics))
    (toFixed (acos metrics) 1 ++ "%")
    [ "If you spend $" ++ ts (adSpend values) ++ " on advertising to get $"
        ++ ts (totalSales metrics) ++ " in sales from " ++ ts (orders values)
        ++ " orders with an average order value of $" ++ ts (avgOrderValue values)
        ++ ", your ROAS will be " ++ toFixed (roas metrics) 1 ++ "x.";
      "This indicates that for every $1 spent on ads, you earn $"
        ++ toFixed (roas metrics) 2 ++ " in revenue.";
      "Your ACOS (Advertising Cost of Sale) indicates that " ++ toFixed (acos metrics) 1
        ++ "% of your revenue will go to advertising costs. You have an additional "
        ++ toFixed (remaining_share metrics) 1 ++ "% ($" ++ ts (profit metrics)
        ++ ") to cover additional expenses and keep a profit." ].

Definition starts_with_minus (s : string) : bool :=
  match s with String c _ => Ascii.eqb c "-"%char | EmptyString => false end.

(** What the page prints on a slider state, checked over the domain on
    the floats alone, with JavaScript's [===], [<] and [-]: the integer
    metrics are the floats of the exact integers, the numbers given to
    [toFixed] lie strictly between [-2^53] and [2^53], and the
    "additional" share is below zero exactly when there are sales and a
    loss. *)
Definition display_ok (a o w : Z) : bool :=
  let m := computeMetrics (ui_values a o w) in
  Leibniz.eqb (totalSales m) (float_of_Z (o * w))
  && Leibniz.eqb (profit m) (float_of_Z (o * w - a))
  && below_two53 (roas m) && below_two53 (acos m) && below_two53 (remaining_share m)
  && Bool.eqb (PrimFloat.ltb (remaining_share m) (float_of_Z 0))
              ((0 <? o * w) && (o * w <? a))%Z.

Lemma display_check_ok : forall_ui display_ok = true.
Proof. vm_compute. reflexivity. Qed.

Lemma display_at a o w :
  on_range adSpendRange a = true -> on_range ordersRange o = true ->
  on_range avgOrderValueRange w = true -> display_ok a o w = true.
Proof. intros Ha Ho Hw. exact (forall_ui_spec display_ok a o w display_check_ok Ha Ho Hw). Qed.

Lemma ui_bounds a o w :
  on_range adSpendRange a = true -> on_range ordersRange o = true ->
  on_range avgOrderValueRange w = true ->
  (0 <= a <= 1000 /\ 0 <= o <= 40 /\ 0 <= w <= 100)%Z.
Proof.
  intros Ha Ho Hw.
  apply on_range_spec in Ha as [Ha _]; [|reflexivity].
  apply on_range_spec in Ho as [Ho _]; [|reflexivity].
  apply on_range_spec in Hw as [Hw _]; [|reflexivity].
  simpl in *. lia.
Qed.

Lemma pow2_53_lt_1e21 : (inject_Z (2 ^ 53) < inject_Z (10 ^ 21))%Q.
Proof. rewrite <- Zlt_Qlt. reflexivity. Qed.

Lemma below_two53_1e21 x :
  below_two53 x = true -> exists r, to_Q x = Some r /\ (Qabs r < inject_Z (10 ^ 21))%Q.
Proof.
  intros H. destruct (below_two53_spec x H) as (r & Hr & Hb).
  exists r. split; [exact Hr | eapply Qlt_trans; [exact Hb | apply pow2_53_lt_1e21]].
Qed.

(** [toFixed] prints a minus sign exactly for a negative number. *)
Lemma toFixed_sign x f r :
  to_Q x = Some r -> (Qabs r < inject_Z (10 ^ 21))%Q ->
  starts_with_minus (toFixed x f) = negb (Qle_bool 0 r).
Proof.
  intros Hx Hr. rewrite (toFixed_fixed x f r Hx Hr).
  destruct (fixed_string_value (fixed_n (Qabs r) f) f) as (q & _ & _ & c & t & d & Ht & Hd).
  destruct (Qle_bool 0 r); simpl.
  - rewrite Ht. simpl. exact (digit_not_minus c d Hd).
  - reflexivity.
Qed.

(** Every integer a slider state prints is one [number_toString_int]
    covers. *)
Lemma ui_printed a o w :
  on_range adSpendRange a = true -> on_range ordersRange o = true ->
  on_range avgOrderValueRange w = true ->
  printed_int a /\ printed_int o /\ printed_int w /\ printed_int (o * w)
  /\ printed_int (o * w - a).
Proof.
  intros Ha Ho Hw. destruct (ui_bounds a o w Ha Ho Hw) as (Ba & Bo & Bw).
  apply on_range_spec in Ha as [_ Ma]; [|reflexivity].
  apply on_range_spec in Hw as [_ Mw]; [|reflexivity]. simpl in Ma, Mw.
  rewrite Z.sub_0_r in Ma, Mw. apply Z.mod_divide in Ma, Mw; [|lia..].
  assert (Da : (5 | a)%Z) by (apply Z.divide_trans with 10%Z; [exists 2%Z; reflexivity | exact Ma]).
  assert (Dt : (5 | o * w)%Z) by (apply Z.divide_mul_r; exact Mw).
  unfold printed_int. repeat split; [left; split; [exact Da | lia] | right; lia
    | left; split; [exact Mw | lia] | left; split; [exact Dt | nia]
    | left; split; [apply Z.divide_sub_r; assumption | nia]].
Qed.

Lemma view_integers_at a o w :
  on_range adSpendRange a = true -> on_range ordersRange o = true ->
  on_range avgOrderValueRange w = true ->
  let vw := view (ui_values a o w) (computeMetrics (ui_values a o w)) in
  adSpendLabel vw = ("$" ++ Z_to_string a)%string /\ ordersLabel vw = Z_to_string o
  /\ avgOrderValueLabel vw = Z_to_string w
  /\ totalSalesCard vw = ("$" ++ Z_to_string (o * w))%string
  /\ profitCard vw = ("$" ++ Z_to_string (o * w - a))%string.
Proof.
  intros Ha Ho Hw vw. pose proof (display_at a o w Ha Ho Hw) as H.
  destruct (ui_bounds a o w Ha Ho Hw) as (Ba & Bo & Bw).
  unfold display_ok in H. repeat rewrite andb_true_iff in H.
  destruct H as [[[[[Hts Hp] _] _] _] _].
  apply Leibniz.eqb_spec in Hts, Hp. unfold vw, view. cbn [adSpendLabel ordersLabel
    avgOrderValueLabel totalSalesCard profitCard]. rewrite Hts, Hp.
  cbn [adSpend orders avgOrderValue ui_values].
  destruct (ui_printed a o w Ha Ho Hw) as (P1 & P2 & P3 & P4 & P5).
  rewrite !number_toString_int by assumption. repeat split.
Qed.

(** C28: on every slider state the page prints the slider labels, the
    total-sales card and the profit card as the decimal digits of the
    exact integers [a], [o], [w], [o * w] and [o * w - a] (with a minus
    sign for a loss). *)
Theorem view_integers a o w :
  on_range adSpendRange a = true -> on_range ordersRange o = true ->
  on_range avgOrderValueRange w = true ->
  let vw := view (ui_values a o w) (computeMetrics (ui_values a o w)) in
  adSpendLabel vw = ("$" ++ Z_to_string a)%string /\ ordersLabel vw = Z_to_string o
  /\ avgOrderValueLabel vw = Z_to_string w
  /\ totalSalesCard vw = ("$" ++ Z_to_string (o * w))%string
  /\ profitCard vw = ("$" ++ Z_to_string (o * w - a))%string.
Proof. exact (view_integers_at a o w). Qed.

(** A number within [eps] relative error of [e] and below 2^53 prints,
    through [toFixed(f)], a decimal within half a unit of the last place
    plus that relative error of [e]. *)
Lemma toFixed_within x f e eps :
  below_two53 x = true -> approx eps x e = true ->
  exists q, decimal_value (toFixed x f) = Some q
    /\ (Qabs (q - e) <= (1 # 2) / inject_Z (10 ^ Z.of_nat f) + eps * Qabs e)%Q.
Proof.
  intros Hb Happ. destruct (below_two53_1e21 _ Hb) as (r & Hx & Hr).
  apply approx_spec in Happ as (r' & Hr' & Hacc). rewrite Hx in Hr'. injection Hr' as <-.
  destruct (toFixed_error _ f r Hx Hr) as (q & Hq & Herr).
  exists q. split; [exact Hq|].
  setoid_replace (q - e)%Q with ((q - r) + (r - e))%Q by ring.
  eapply Qle_trans; [apply Qabs_triangle|].
  apply Qplus_le_compat; [exact Herr | exact Hacc].
Qed.

(** On a slider state the float ROAS and ACOS are below 2^53 and within
    one and two roundings of the exact ones. *)
Lemma ratios_at a o w :
  on_range adSpendRange a = true -> on_range ordersRange o = true ->
  on_range avgOrderValueRange w = true ->
  let m := computeMetrics (ui_values a o w) in
  let e := computeMetrics (Q_values a o w) in
  below_two53 (roas m) = true /\ approx eps_one (roas m) (roas e) = true
  /\ below_two53 (acos m) = true /\ approx eps_two (acos m) (acos e) = true.
Proof.
  intros Ha Ho Hw m e. pose proof (display_at a o w Ha Ho Hw) as H.
  pose proof (proj1 (domain_check_at a o w Ha Ho Hw)) as Href.
  unfold display_ok in H. unfold refines in Href.
  repeat rewrite andb_true_iff in H. repeat rewrite andb_true_iff in Href.
  destruct H as [[[[[_ _] Hr] Hc] _] _]. destruct Href as [[[_ Hr'] _] Hc'].
  repeat split; assumption.
Qed.

Lemma roas_card_at a o w f :
  on_range adSpendRange a = true -> on_range ordersRange o = true ->
  on_range avgOrderValueRange w = true ->
  let e := roas (computeMetrics (Q_values a o w)) in
  exists q, decimal_value (toFixed (roas (computeMetrics (ui_values a o w))) f) = Some q
    /\ (Qabs (q - e) <= (1 # 2) / inject_Z (10 ^ Z.of_nat f) + eps_one * Qabs e)%Q.
Proof.
  intros Ha Ho Hw e. destruct (ratios_at a o w Ha Ho Hw) as (Hb & Happ & _).
  exact (toFixed_within _ f _ _ Hb Happ).
Qed.

(** C29: on every slider state the ROAS card shows a decimal within
    0.05 (one rounding to a tenth) plus one float rounding of the exact
    ROAS [o * w / a]. *)
Theorem roas_card_accuracy a o w :
  on_range adSpendRange a = true -> on_range ordersRange o = true ->
  on_range avgOrderValueRange w = true ->
  let e := roas (computeMetrics (Q_values a o w)) in
  exists q, decimal_value (toFixed (roas (computeMetrics (ui_values a o w))) 1) = Some q
    /\ (Qabs (q - e) <= (1 # 20) + eps_one * Qabs e)%Q.
Proof. exact (fun Ha Ho Hw => roas_card_at a o w 1 Ha Ho Hw). Qed.

(** C11: on every slider state the ACOS card shows a decimal within
    0.05 plus two float roundings of the exact ACOS [a / (o * w) * 100]. *)
Theorem acos_card_accuracy a o w :
  on_range adSpendRange a = true -> on_range ordersRange o = true ->
  on_range avgOrderValueRange w = true ->
  let e := acos (computeMetrics (Q_values a o w)) in
  exists q, acosCard (view (ui_values a o w) (computeMetrics (ui_values a o w)))
              = (toFixed (acos (computeMetrics (ui_values a o w))) 1 ++ "%")%string
    /\ decimal_value (toFixed (acos (computeMetrics (ui_values a o w))) 1) = Some q
    /\ (Qabs (q - e) <= (1 # 20) + eps_two * Qabs e)%Q.
Proof.
  intros Ha Ho Hw e. destruct (ratios_at a o w Ha Ho Hw) as (_ & _ & Hb & Happ).
  destruct (toFixed_within _ 1 _ _ Hb Happ) as (q & Hq & Herr).
  exists q. repeat split; assumption.
Qed.

(** C12: on every slider state the second paragraph of the explanation
    names, as the revenue of each dollar spent, a decimal within 0.005
    (one rounding to a hundredth) plus one float rounding of the exact
    ROAS. *)
Theorem explanation_roas_accuracy a o w :
  on_range adSpendRange a = true -> on_range ordersRange o = true ->
  on_range avgOrderValueRange w = true ->
  let e := roas (computeMetrics (Q_values a o w)) in
  exists s q, nth_error (explanation (view (ui_values a o w) (computeMetrics (ui_values a o w)))) 1
      = Some ("This indicates that for every $1 spent on ads, you earn $" ++ s ++ " in revenue.")%string
    /\ decimal_value s = Some q /\ (Qabs (q - e) <= (1 # 200) + eps_one * Qabs e)%Q.
Proof.
  intros Ha Ho Hw e. destruct (roas_card_at a o w 2 Ha Ho Hw) as (q & Hq & Herr).
  exists (toFixed (roas (computeMetrics (ui_values a o w))) 2), q.
  repeat split; assumption.
Qed.

(** C30: on every slider state the explanation prints the "additional"
    share [(100 - acos).toFixed(1)] with a minus sign exactly when there
    are sales and the ad spend exceeds them. *)
Theorem remaining_share_sign a o w :
  on_range adSpendRange a = true -> on_range ordersRange o = true ->
  on_range avgOrderValueRange w = true ->
  starts_with_minus (toFixed (remaining_share (computeMetrics (ui_values a o w))) 1)
  = ((0 <? o * w) && (o * w <? a))%Z.
Proof.
  intros Ha Ho Hw. pose proof (display_at a o w Ha Ho Hw) as H.
  unfold display_ok in H. repeat rewrite andb_true_iff in H.
  destruct H as [[_ Hs] H]. apply Bool.eqb_prop in H.
  destruct (below_two53_1e21 _ Hs) as (r & Hx & Hb).
  rewrite (toFixed_sign _ 1 r Hx Hb), <- (ltb_zero_sign _ r Hx). exact H.
Qed.

(** The guards of the effect: no ad spend gives a zero ROAS, no sales a
    zero ACOS. *)
Lemma roas_no_spend o w : roas (computeMetrics (ui_values 0 o w)) = float_of_Z 0.
Proof. reflexivity. Qed.

Lemma acos_no_sales (v : Values float) :
  totalSales (computeMetrics v) = float_of_Z 0 -> acos (computeMetrics v) = float_of_Z 0.
Proof. unfold computeMetrics. cbn [acos totalSales]. intros H. rewrite H. reflexivity. Qed.

(** A positive integer up to 4000 divided by zero is [Infinity]. *)
Definition div_zero_infinite (z : Z) : bool :=
  Leibniz.eqb (float_of_Z z / float_of_Z 0)%float PrimFloat.infinity.

Lemma div_zero_check : forallb div_zero_infinite (grid 1 1 4000) = true.
Proof. vm_compute. reflexivity. Qed.

Lemma div_zero_at z :
  (1 <= z <= 4000)%Z -> (float_of_Z z / float_of_Z 0)%float = PrimFloat.infinity.
Proof.
  intros Hz. apply Leibniz.eqb_spec.
  apply (forallb_grid div_zero_infinite 1 1 4000 z); [lia | exact div_zero_check |].
  unfold on_grid. rewrite Z.mod_1_r. apply andb_true_intro; split;
    [apply andb_true_intro; split; apply Z.leb_le | apply Z.eqb_eq]; simpl; lia.
Qed.

(** C22: on every slider state the guards of the effect keep the cards
    finite where the quotient is not: with no ad spend the ROAS card
    shows "0.0x" although the unguarded [totalSales / adSpend] would
    print "Infinity" whenever there are sales, and with no sales the
    ACOS card shows "0.0%" although the unguarded
    [(adSpend / totalSales) * 100] would print "Infinity" whenever there
    is ad spend. *)
Theorem guarded_divisions a o w :
  on_range adSpendRange a = true -> on_range ordersRange o = true ->
  on_range avgOrderValueRange w = true ->
  let m := computeMetrics (ui_values a o w) in
  let vw := view (ui_values a o w) m in
  (a = 0%Z -> roasCard vw = "0.0x"%string
     /\ ((0 < o * w)%Z -> toFixed (totalSales m / float_of_Z a)%float 1 = "Infinity"%string))
  /\ ((o * w = 0)%Z -> acosCard vw = "0.0%"%string
     /\ ((0 < a)%Z -> toFixed (float_of_Z a / totalSales m * float_of_Z 100)%float 1
                      = "Infinity"%string)).
Proof.
  intros Ha Ho Hw m vw. pose proof (display_at a o w Ha Ho Hw) as H.
  destruct (ui_bounds a o w Ha Ho Hw) as (Ba & Bo & Bw).
  unfold display_ok in H. repeat rewrite andb_true_iff in H.
  destruct H as [[[[[Hts _] _] _] _] _]. apply Leibniz.eqb_spec in Hts.
  unfold vw, m, view. cbn [roasCard acosCard]. split; intros E.
  - subst a. split; [rewrite roas_no_spend; reflexivity|].
    intros Hp. rewrite Hts, div_zero_at by nia. reflexivity.
  - rewrite E in Hts. split; [rewrite (acos_no_sales _ Hts); reflexivity|].
    intros Hp. rewrite Hts, div_zero_at by lia. reflexivity.
Qed.


(** ** Number::prototype.toFixed as the page uses it *)

Lemma printed_int_field f z :
  on_range (field_range f) z = true -> printed_int z /\ (0 <= z <= 1000)%Z.
Proof.
  intros Hz. assert (H0 : forall g, on_range (field_range g) 0 = true) by (destruct g; reflexivity).
  destruct f.
  - destruct (ui_printed z 0 0 Hz (H0 FOrders) (H0 FAvgOrderValue)) as [P _].
    destruct (ui_bounds z 0 0 Hz (H0 FOrders) (H0 FAvgOrderValue)). split; [exact P | lia].
  - destruct (ui_printed 0 z 0 (H0 FAdSpend) Hz (H0 FAvgOrderValue)) as (_ & P & _).
    destruct (ui_bounds 0 z 0 (H0 FAdSpend) Hz (H0 FAvgOrderValue)). split; [exact P | lia].
  - destruct (ui_printed 0 0 z (H0 FAdSpend) (H0 FOrders) Hz) as (_ & _ & P & _).
    destruct (ui_bounds 0 0 z (H0 FAdSpend) (H0 FOrders) Hz). split; [exact P | lia].
Qed.

(** Reading back the digits of a natural number below 2^53. *)
Lemma string_to_number_N n :
  (n < 2 ^ 53)%N -> string_to_number (N_to_string n) = Some (float_of_Z (Z.of_N n)).
Proof.
  intros Hn. pose proof (digits_value_N_to_string n) as Hd.
  unfold string_to_number. destruct (N_to_string n) as [|c t] eqn:E;
    [exfalso; exact (N_to_string_nonempty n E)|].
  unfold digits_value in Hd. destruct (digits_value_head c t 0 n Hd) as [d Hc].
  rewrite (digit_not_minus c d Hc). unfold digits_value. rewrite Hd.
  apply N.ltb_lt in Hn. rewrite Hn. reflexivity.
Qed.

(** C24: the string a slider hands to its handler reads back, through
    [Number], as exactly the sanitized value: modelling
    [Number(e.target.value)] as [float_of_Z] of the sanitized integer
    loses nothing. *)
Theorem slider_value_roundtrip f raw :
  string_to_number (value_string (field_range f) raw)
  = Some (float_of_Z (sanitize (field_range f) raw)).
Proof.
  pose proof (sanitize_on_range (field_range f) (field_range_wf f) raw) as Hz.
  destruct (printed_int_field f _ Hz) as [P B].
  unfold value_string. rewrite (number_toString_int _ P).
  unfold Z_to_string. destruct (Z.ltb_spec (sanitize (field_range f) raw) 0); [lia|].
  rewrite string_to_number_N by (apply N2Z.inj_lt; rewrite Z2N.id by lia; simpl; lia).
  rewrite Z2N.id by lia. reflexivity.
Qed.

(** C27: on every state whose ROAS and ACOS are finite numbers below
    10^21 in magnitude, the ROAS card is a decimal followed by "x" and
    the ACOS card a decimal followed by "%", each within 0.05 (half a
    unit of the one place [toFixed(1)] keeps) of the number held. *)
Theorem cards_roundtrip (values : Values float) (metrics : Metrics float) r c :
  to_Q (roas metrics) = Some r -> (Qabs r < inject_Z (10 ^ 21))%Q ->
  to_Q (acos metrics) = Some c -> (Qabs c < inject_Z (10 ^ 21))%Q ->
  let vw := view values metrics in
  exists s t q p, roasCard vw = (s ++ "x")%string /\ acosCard vw = (t ++ "%")%string
    /\ decimal_value s = Some q /\ (Qabs (q - r) <= 1 # 20)%Q
    /\ decimal_value t = Some p /\ (Qabs (p - c) <= 1 # 20)%Q.
Proof.
  intros Hr Br Hc Bc vw.
  destruct (toFixed_error _ 1 r Hr Br) as (q & Hq & Eq).
  destruct (toFixed_error _ 1 c Hc Bc) as (p & Hp & Ep).
  exists (toFixed (roas metrics) 1), (toFixed (acos metrics) 1), q, p.
  repeat split; assumption.
Qed.

(** C31: on every state whose ROAS and ACOS are finite numbers below
    10^21 in magnitude, the ROAS card is an optional minus sign, digits,
    a point and one digit, followed by "x", and the ACOS card the same
    followed by "%". *)
Theorem cards_format (values : Values float) (metrics : Metrics float) r c :
  to_Q (roas metrics) = Some r -> (Qabs r < inject_Z (10 ^ 21))%Q ->
  to_Q (acos metrics) = Some c -> (Qabs c < inject_Z (10 ^ 21))%Q ->
  let vw := view values metrics in
  exists s t, roasCard vw = (s ++ "x")%string /\ acosCard vw = (t ++ "%")%string
    /\ decimal_shape s 1 /\ decimal_shape t 1.
Proof.
  intros Hr Br Hc Bc vw.
  exists (toFixed (roas metrics) 1), (toFixed (acos metrics) 1).
  split; [reflexivity|]. split; [reflexivity|].
  split; [exact (toFixed_parts _ 1 r Hr Br ltac:(lia)) | exact (toFixed_parts _ 1 c Hc Bc ltac:(lia))].
Qed.

(** At a loss (ad spend 500, 20 orders of 10) the page prints every
    text below; the explanation says there is an "additional -150.0%"
    of revenue, a negative share, "to cover additional expenses and keep
    a profit". *)
Example view_at_loss :
  view (ui_values 500 20 10) (computeMetrics (ui_values 500 20 10))
  = mkView "$500" "20" "10" "$200" "0.4x" "$-300" "250.0%"
      [ "If you spend $500 on advertising to get $200 in sales from 20 orders with an average order value of $10, your ROAS will be 0.4x.";
        "This indicates that for every $1 spent on ads, you earn $0.40 in revenue.";
        "Your ACOS (Advertising Cost of Sale) indicates that 250.0% of your revenue will go to advertising costs. You have an additional -150.0% ($-300) to cover additional expenses and keep a profit." ].
Proof. vm_compute. reflexivity. Qed.

(** With ad spend 100 and 23 orders of 5 the exact ROAS is 1.15;
    the ROAS card and the first paragraph print it as 1.1 (the float
    nearest 1.15 lies below it), the second paragraph as 1.15. *)
Example roas_card_rounds_down :
  roas (computeMetrics (Q_values 100 23 5)) == 115 # 100
  /\ roasCard (view (ui_values 100 23 5) (computeMetrics (ui_values 100 23 5))) = "1.1x"%string
  /\ nth_error (explanation (view (ui_values 100 23 5) (computeMetrics (ui_values 100 23 5)))) 1
     = Some "This indicates that for every $1 spent on ads, you earn $1.15 in revenue."%string.
Proof. split; [reflexivity|]. split; vm_compute; reflexivity. Qed.

(** ** Witnesses *)

Definition roas_at (a o w : Z) : float := roas (computeMetrics (ui_values a o w)).

Definition value_of (x : float) : Q := match to_Q x with Some r => r | None => 0%Q end.

Definition acos_at (a o w : Z) : float := acos (computeMetrics (ui_values a o w)).

Lemma cards_roundtrip_witness :
  let vw := view (ui_values 100 23 5) (computeMetrics (ui_values 100 23 5)) in
  exists s t q p, roasCard vw = (s ++ "x")%string /\ acosCard vw = (t ++ "%")%string
    /\ decimal_value s = Some q /\ (Qabs (q - value_of (roas_at 100 23 5)) <= 1 # 20)%Q
    /\ decimal_value t = Some p /\ (Qabs (p - value_of (acos_at 100 23 5)) <= 1 # 20)%Q.
Proof.
  apply (cards_roundtrip _ _ (value_of (roas_at 100 23 5)) (value_of (acos_at 100 23 5)));
    vm_compute; reflexivity.
Defined.

Lemma cards_format_witness :
  let vw := view (ui_values 100 23 5) (computeMetrics (ui_values 100 23 5)) in
  exists s t, roasCard vw = (s ++ "x")%string /\ acosCard vw = (t ++ "%")%string
    /\ decimal_shape s 1 /\ decimal_shape t 1.
Proof.
  apply (cards_format _ _ (value_of (roas_at 100 23 5)) (value_of (acos_at 100 23 5)));
    vm_compute; reflexivity.
Defined.

Lemma view_integers_witness :
  let vw := view (ui_values 500 20 10) (computeMetrics (ui_values 500 20 10)) in
  adSpendLabel vw = ("$" ++ Z_to_string 500)%string /\ ordersLabel vw = Z_to_string 20
  /\ avgOrderValueLabel vw = Z_to_string 10
  /\ totalSalesCard vw = ("$" ++ Z_to_string (20 * 10))%string
  /\ profitCard vw = ("$" ++ Z_to_string (20 * 10 - 500))%string.
Proof. exact (view_integers 500 20 10 eq_refl eq_refl eq_refl). Defined.

Lemma roas_card_accuracy_witness :
  let e := roas (computeMetrics (Q_values 100 23 5)) in
  exists q, decimal_value (toFixed (roas (computeMetrics (ui_values 100 23 5))) 1) = Some q
    /\ (Qabs (q - e) <= (1 # 20) + eps_one * Qabs e)%Q.
Proof. exact (roas_card_accuracy 100 23 5 eq_refl eq_refl eq_refl). Defined.

Lemma remaining_share_sign_witness :
  starts_with_minus (toFixed (remaining_share (computeMetrics (ui_values 500 20 10))) 1)
  = ((0 <? 20 * 10) && (20 * 10 <? 500))%Z.
Proof. exact (remaining_share_sign 500 20 10 eq_refl eq_refl eq_refl). Defined.

Lemma acos_card_accuracy_witness :
  let e := acos (computeMetrics (Q_values 100 23 5)) in
  exists q, acosCard (view (ui_values 100 23 5) (computeMetrics (ui_values 100 23 5)))
              = (toFixed (acos (computeMetrics (ui_values 100 23 5))) 1 ++ "%")%string
    /\ decimal_value (toFixed (acos (computeMetrics (ui_values 100 23 5))) 1) = Some q
    /\ (Qabs (q - e) <= (1 # 20) + eps_two * Qabs e)%Q.
Proof. exact (acos_card_accuracy 100 23 5 eq_refl eq_refl eq_refl). Defined.

Lemma explanation_roas_accuracy_witness :
  let e := roas (computeMetrics (Q_values 100 23 5)) in
  exists s q, nth_error (explanation (view (ui_values 100 23 5) (computeMetrics (ui_values 100 23 5)))) 1
      = Some ("This indicates that for every $1 spent on ads, you earn $" ++ s ++ " in revenue.")%string
    /\ decimal_value s = Some q /\ (Qabs (q - e) <= (1 # 200) + eps_one * Qabs e)%Q.
Proof. exact (explanation_roas_accuracy 100 23 5 eq_refl eq_refl eq_refl). Defined.

Lemma guarded_divisions_witness :
  let m := computeMetrics (ui_values 0 20 50) in
  let vw := view (ui_values 0 20 50) m in
  ((0 = 0)%Z -> roasCard vw = "0.0x"%string
     /\ ((0 < 20 * 50)%Z -> toFixed (totalSales m / float_of_Z 0)%float 1 = "Infinity"%string))
  /\ ((20 * 50 = 0)%Z -> acosCard vw = "0.0%"%string
     /\ ((0 < 0)%Z -> toFixed (float_of_Z 0 / totalSales m * float_of_Z 100)%float 1
                      = "Infinity"%string)).
Proof. exact (guarded_divisions 0 20 50 eq_refl eq_refl eq_refl). Defined.
