(* ===== verification/Page.v ===== *)
(** * The page: the element tree [Home] returns (page.tsx:43-161)

    [Home] renders one tree: a heading, the three sliders with their
    labels, the "orders x average order value = total sales" line, the
    three metric cards, the explanation and the chart.  [Node] is that
    tree as the browser receives it: elements with their tag and class,
    text, the three range inputs (their [value], [min]/[max]/[step] and
    the field their [onChange] writes) and the chart (its wiring and
    data).  This file composes the components: the text is [Display]'s
    [view], the inputs are [Inputs]' sliders, the chart is [Chart]'s, and
    the state rendered is a state of [Lifecycle]. *)

From Stdlib Require Import ZArith QArith Qabs List Lia Bool Floats String.
From S2P Require Import Prelude JsNumber Inputs Metrics Chart Lifecycle Display.
Import ListNotations.

Inductive Node :=
| Text (s : string)
| Elem (tag className : string) (children : list Node)
| RangeInput (value : float) (range : RangeSpec) (field : Field) (className : string)
| Chart (chart : LineChart) (data : list (ChartPoint.t float)).

Local Open Scope string_scope.

Definition slider_class : string := "w-full h-2 bg-gray-700 rounded-lg appearance-none cursor-pointer".
Definition card_class : string := "p-4 bg-[#252525] rounded-lg".

(** A metric card: [<div className="p-4 ..."><div>label</div><div>shown</div></div>]. *)
Definition card (label shown : string) : Node :=
  Elem "div" card_class
    [ Elem "div" "text-sm text-gray-400" [Text label];
      Elem "div" "text-xl text-purple-400" [Text shown] ].

Definition Home (values : Values float) (metrics : Metrics float) : Node :=
  let vw := view values metrics in
  Elem "main" "min-h-screen bg-[#1A1A1A] p-8"
  [ Elem "div" "max-w-3xl mx-auto space-y-8"
    [ Elem "h1" "text-2xl font-bold text-white" [Text "ROAS Calculator"];
      Elem "div" "space-y-2"
        [ Elem "div" "flex justify-between text-gray-300"
            [ Elem "span" "" [Text "Ad Spend ($)"];
              Elem "span" "" [Text (adSpendLabel vw)] ];
          RangeInput (adSpend values) adSpendRange FAdSpend slider_class ];
      Elem "div" "flex items-center gap-4 text-gray-300"
        [ Elem "div" "flex-1 space-y-2"
            [ Elem "div" "flex justify-between"
                [ Elem "span" "" [Text "Number of Orders"];
                  Elem "span" "" [Text (ordersLabel vw)] ];
              RangeInput (orders values) ordersRange FOrders slider_class ];
          Elem "span" "text-2xl" [Text "×"];
          Elem "div" "flex-1 space-y-2"
            [ Elem "div" "flex justify-between"
                [ Elem "span" "" [Text "Average Order Value ($)"];
                  Elem "span" "" [Text (avgOrderValueLabel vw)] ];
              RangeInput (avgOrderValue values) avgOrderValueRange FAvgOrderValue slider_class ];
          Elem "span" "text-2xl" [Text "="];
          Elem "div" "text-right"
            [ Elem "div" "text-sm" [Text "Total Sales"];
              Elem "div" "text-2xl text-purple-400" [Text (totalSalesCard vw)] ] ];
      Elem "div" "grid grid-cols-3 gap-4"
        [ card "ROAS" (roasCard vw); card "Profit" (profitCard vw); card "ACOS" (acosCard vw) ];
      Elem "div" "space-y-2 text-sm text-gray-400"
        (map (fun t => Elem "p" "" [Text t]) (explanation vw));
      Elem "div" "space-y-4"
        [ Elem "h3" "text-white" [Text "Performance Analysis"];
          Elem "div" "h-64 bg-[#252525] rounded-lg p-4"
            [ Chart pageChart (generateChartData values) ] ] ] ].

(** The text nodes of a tree in document order (the pieces of the DOM's
    [textContent]). *)
Fixpoint texts (n : Node) : list string :=
  match n with
  | Text s => [s]
  | Elem _ _ cs => flat_map texts cs
  | RangeInput _ _ _ _ | Chart _ _ => []
  end.

(** The range inputs of a tree in document order. *)
Fixpoint range_inputs (n : Node) : list (float * RangeSpec * Field) :=
  match n with
  | RangeInput x r f _ => [(x, r, f)]
  | Elem _ _ cs => flat_map range_inputs cs
  | Text _ | Chart _ _ => []
  end.

(** The charts of a tree in document order. *)
Fixpoint charts (n : Node) : list (LineChart * list (ChartPoint.t float)) :=
  match n with
  | Chart c d => [(c, d)]
  | Elem _ _ cs => flat_map charts cs
  | Text _ | RangeInput _ _ _ _ => []
  end.

(** ** What the tree holds *)

Lemma flat_map_p_texts (l : list string) :
  flat_map texts (map (fun t => Elem "p" "" [Text t]) l) = l.
Proof. induction l as [|t l IH]; simpl; [reflexivity|]. rewrite IH. reflexivity. Qed.

Lemma Home_texts values metrics :
  let vw := view values metrics in
  texts (Home values metrics) =
    ([ "ROAS Calculator"; "Ad Spend ($)"; adSpendLabel vw; "Number of Orders"; ordersLabel vw;
      "×"; "Average Order Value ($)"; avgOrderValueLabel vw; "="; "Total Sales";
      totalSalesCard vw; "ROAS"; roasCard vw; "Profit"; profitCard vw; "ACOS"; acosCard vw ]
    ++ explanation vw ++ [ "Performance Analysis" ])%list.
Proof.
  intros vw. unfold Home. fold vw. cbn [texts flat_map app]. rewrite flat_map_p_texts. reflexivity.
Qed.

Lemma Home_range_inputs values metrics :
  range_inputs (Home values metrics) =
    map (fun f => (get_field f values, field_range f, f)) [FAdSpend; FOrders; FAvgOrderValue].
Proof. reflexivity. Qed.

Lemma Home_charts values metrics :
  charts (Home values metrics) = [(pageChart, generateChartData values)].
Proof. reflexivity. Qed.

(** ** The page React shows *)

(** C19: whenever the page is at rest, its text is, in order: the
    heading, each slider's label with the digits of its value, the
    total sales and the profit as the digits of the exact integers
    [o * w] and [o * w - a], the ROAS card within 0.05 plus one float
    rounding of the exact ROAS, the ACOS card, the three paragraphs and
    the chart's heading. *)
Theorem rest_page_text s :
  reachable s -> idle s ->
  exists a o w, values s = ui_values a o w
    /\ exists rc ac expl,
      texts (Home (values s) (metrics s)) =
        ([ "ROAS Calculator"; "Ad Spend ($)"; ("$" ++ Z_to_string a)%string; "Number of Orders";
           Z_to_string o; "×"; "Average Order Value ($)"; Z_to_string w; "="; "Total Sales";
           ("$" ++ Z_to_string (o * w))%string; "ROAS"; (rc ++ "x")%string; "Profit";
           ("$" ++ Z_to_string (o * w - a))%string; "ACOS"; (ac ++ "%")%string ]
         ++ expl ++ [ "Performance Analysis" ])%list
      /\ exists q, decimal_value rc = Some q
        /\ (Qabs (q - roas (computeMetrics (Q_values a o w)))
            <= (1 # 20) + eps_one * Qabs (roas (computeMetrics (Q_values a o w))))%Q.
Proof.
  intros Hr Hi. rewrite (rest_consistent s Hr Hi).
  destruct (reachable_state_in_domain s Hr) as [(a & o & w & Ha & Ho & Hw & Hv) _].
  rewrite Hv. exists a, o, w. split; [reflexivity|].
  destruct (view_integers_at a o w Ha Ho Hw) as (H1 & H2 & H3 & H4 & H5).
  exists (toFixed (roas (computeMetrics (ui_values a o w))) 1),
         (toFixed (acos (computeMetrics (ui_values a o w))) 1),
         (explanation (view (ui_values a o w) (computeMetrics (ui_values a o w)))).
  split; [rewrite Home_texts, H1, H2, H3, H4, H5; reflexivity|].
  exact (roas_card_at a o w 1 Ha Ho Hw).
Qed.

(** C32: in every reachable state the page has exactly three range
    inputs, for ad spend, orders and average order value in that order;
    each shows the value of the field its [onChange] writes, with that
    field's [min]/[max]/[step], and that value is one the slider can
    take, so the browser keeps it as given. *)
Theorem page_sliders_controlled s :
  reachable s ->
  range_inputs (Home (values s) (metrics s))
    = map (fun f => (get_field f (values s), field_range f, f)) [FAdSpend; FOrders; FAvgOrderValue]
  /\ Forall (fun '(x, r, f) => exists z, x = float_of_Z z /\ on_range r z = true)
       (range_inputs (Home (values s) (metrics s))).
Proof.
  intros Hr. rewrite Home_range_inputs. split; [reflexivity|].
  destruct (reachable_state_in_domain s Hr) as [(a & o & w & Ha & Ho & Hw & ->) _].
  repeat constructor; eexists; split; first [reflexivity | eassumption].
Qed.

(** C33: whenever the page is at rest, it draws one chart, the revenue
    and ad-spend lines over [generateChartData], and the revenue line
    passes through the point whose x is the orders the page shows and
    whose y is the total sales on its card. *)
Theorem rest_chart_meets_card s :
  reachable s -> idle s ->
  charts (Home (values s) (metrics s)) = [(pageChart, generateChartData (values s))]
  /\ exists p, In p (generateChartData (values s)) /\ ChartPoint.orders p = orders (values s)
       /\ ChartPoint.revenue p = totalSales (metrics s).
Proof.
  intros Hr Hi. rewrite Home_charts. split; [reflexivity|].
  rewrite (rest_consistent s Hr Hi).
  exact (revenue_at_orders _ (proj1 (reachable_state_in_domain s Hr))).
Qed.

(** The state React commits first after the ad-spend slider of the
    mounted page is moved to 0. *)
Lemma first_commit_reachable :
  reachable (render (enqueue (input_update FAdSpend 0) mounted)).
Proof.
  eapply reach_step; [eapply reach_step; [apply settle_reachable, reach_init | apply step_input]|].
  apply step_render; vm_compute; [reflexivity | discriminate].
Qed.

(** The stale first commit after an input is visible on the page: after the
    ad-spend slider of the mounted page is moved to 0, React's first
    commit prints the ad spend "$0" next to the ROAS card "2.0x" and the
    profit card "$500" of the previous ad spend 500. *)
Example stale_text_after_input :
  let s := render (enqueue (input_update FAdSpend 0) mounted) in
  reachable s
  /\ nth_error (texts (Home (values s) (metrics s))) 2 = Some "$0"
  /\ nth_error (texts (Home (values s) (metrics s))) 12 = Some "2.0x"
  /\ nth_error (texts (Home (values s) (metrics s))) 14 = Some "$500".
Proof. split; [exact first_commit_reachable | vm_compute; repeat split]. Qed.

(** ** Witnesses *)

Lemma mounted_idle : reachable mounted /\ idle mounted.
Proof. split; [apply settle_reachable, reach_init | split; vm_compute; reflexivity]. Qed.

Lemma rest_page_text_witness :
  exists a o w, values mounted = ui_values a o w
    /\ exists rc ac expl,
      texts (Home (values mounted) (metrics mounted)) =
        ([ "ROAS Calculator"; "Ad Spend ($)"; ("$" ++ Z_to_string a)%string; "Number of Orders";
           Z_to_string o; "×"; "Average Order Value ($)"; Z_to_string w; "="; "Total Sales";
           ("$" ++ Z_to_string (o * w))%string; "ROAS"; (rc ++ "x")%string; "Profit";
           ("$" ++ Z_to_string (o * w - a))%string; "ACOS"; (ac ++ "%")%string ]
         ++ expl ++ [ "Performance Analysis" ])%list
      /\ exists q, decimal_value rc = Some q
        /\ (Qabs (q - roas (computeMetrics (Q_values a o w)))
            <= (1 # 20) + eps_one * Qabs (roas (computeMetrics (Q_values a o w))))%Q.
Proof. exact (rest_page_text mounted (proj1 mounted_idle) (proj2 mounted_idle)). Defined.

Lemma page_sliders_controlled_witness :
  range_inputs (Home (values mounted) (metrics mounted))
    = map (fun f => (get_field f (values mounted), field_range f, f)) [FAdSpend; FOrders; FAvgOrderValue]
  /\ Forall (fun '(x, r, f) => exists z, x = float_of_Z z /\ on_range r z = true)
       (range_inputs (Home (values mounted) (metrics mounted))).
Proof. exact (page_sliders_controlled mounted (proj1 mounted_idle)). Defined.

Lemma rest_chart_meets_card_witness :
  charts (Home (values mounted) (metrics mounted)) = [(pageChart, generateChartData (values mounted))]
  /\ exists p, In p (generateChartData (values mounted)) /\ ChartPoint.orders p = orders (values mounted)
       /\ ChartPoint.revenue p = totalSales (metrics mounted).
Proof. exact (rest_chart_meets_card mounted (proj1 mounted_idle) (proj2 mounted_idle)). Defined.
